(** * Qudi manager GUI: module list, configuration tree and command dispatch

    A shallow embedding of [gui/manager/managergui.py].  Toolkit objects
    (signals, labels, tree items, dialogs) are modelled by the part of their
    state that the Python code reads or writes; the external manager is
    modelled by the tree it exposes. *)

From stdpp Require Import gmap strings list fin_maps.

Set Warnings "-register-all,-clear-no-such-hyp".
Open Scope string_scope.
Open Scope list_scope.

(** * Python preliminaries *)

Module Py.

(** An exception object: whether its class derives from [Exception]
    (a bare [except:] catches everything, [except Exception] does not catch
    e.g. [KeyboardInterrupt]) and its [str()] form. *)
Record exn := Exn { is_Exception : bool; exn_str : string }.

(** Outcome of a call that may raise. *)
Inductive result (A : Type) : Type :=
| Return (a : A)
| Raise (e : exn).
Arguments Return {A} a.
Arguments Raise {A} e.

#[global] Instance result_ret : MRet result := fun A a => Return a.
#[global] Instance result_bind : MBind result := fun A B k r =>
  match r with
  | Return a => k a
  | Raise e => Raise e
  end.

(** Code that runs on a mutable object of type [S] and may raise: the
    object is threaded through, and what was written before an exception
    stays written. *)
Definition M (S A : Type) : Type := S → result A * S.

#[global] Instance M_ret {S} : MRet (M S) := fun A a s => (Return a, s).
#[global] Instance M_bind {S} : MBind (M S) := fun A B k m s =>
  match m s with
  | (Return a, s') => k a s'
  | (Raise e, s') => (Raise e, s')
  end.

Definition lift {S A} (r : result A) : M S A := fun s => (r, s).
Definition get_self {S} : M S S := fun s => (Return s, s).
Definition modify {S} (f : S → S) : M S unit := fun s => (Return tt, f s).

(** [try: body / except: handler] (a bare [except] catches everything). *)
Definition try_except {S A} (body : M S A) (handler : exn → M S A) : M S A :=
  fun s =>
    match body s with
    | (Return a, s') => (Return a, s')
    | (Raise e, s') => handler e s'
    end.

(** [try: body / except Exception as e: handler] *)
Definition try_except_Exception {S A} (body : M S A) (handler : exn → M S A)
  : M S A :=
  try_except body
    (fun e => if is_Exception e then handler e else lift (Raise e)).

(** [for x in l: body], threading an accumulator. *)
Fixpoint for_in {A B} (l : list A) (body : A → B → result B) (acc : B)
  : result B :=
  match l with
  | [] => Return acc
  | x :: l' => acc' ← body x acc; for_in l' body acc'
  end.

(** [for x in l: body] on the mutable object. *)
Fixpoint for_each {S A} (l : list A) (body : A → M S unit) : M S unit :=
  match l with
  | [] => mret tt
  | x :: l' => _ ← body x; for_each l' body
  end.

Definition KeyError (key : string) : exn := Exn true ("'" +:+ key +:+ "'").

(** A [dict] with [str] keys, in insertion order. *)
Definition dict (V : Type) : Type := list (string * V).

Definition keys {V} (d : dict V) : list string := d.*1.

Fixpoint get {V} (d : dict V) (key : string) : option V :=
  match d with
  | [] => None
  | (k, v) :: d' => if String.eqb k key then Some v else get d' key
  end.

(** [key in d] *)
Definition contains {V} (d : dict V) (key : string) : bool :=
  match get d key with Some _ => true | None => false end.

(** [d[key]] *)
Definition getitem {V} (d : dict V) (key : string) : result V :=
  match get d key with
  | Some v => Return v
  | None => Raise (KeyError key)
  end.

(** [x in l] for a list of strings. *)
Definition list_contains (l : list string) (x : string) : bool :=
  existsb (String.eqb x) l.

End Py.

(** * The configuration tree projector ([fillTreeItem], [fillTreeWidget]) *)

Module ConfigTree.

(** Values handed to the projector, by exact runtime type.  Keys are [str]
    ([setText] is given the key itself). *)
Inductive pyvalue : Type :=
| VDict (kvs : list (string * pyvalue))        (* type(v) is dict *)
| VOrderedDict (kvs : list (string * pyvalue)) (* type(v) is OrderedDict *)
| VList (vs : list pyvalue)                    (* type(v) is list *)
| VTuple (vs : list pyvalue)                   (* type(v) is tuple *)
| VSet (vs : list pyvalue)                     (* type(v) is set *)
| VDictSubclass (cls : string) (kvs : list (string * pyvalue))
    (* instance of a strict subclass of dict other than OrderedDict *)
| VListSubclass (cls : string) (vs : list pyvalue)
    (* instance of a strict subclass of list *)
| VScalar (cls : string) (repr : string).      (* int, str, None, objects *)

(** [type(value) is OrderedDict or type(value) is dict or
    type(value) is list] *)
Definition type_is_dict_odict_or_list (value : pyvalue) : bool :=
  match value with
  | VDict _ | VOrderedDict _ | VList _ => true
  | _ => false
  end.

(** [QTreeWidgetItem]: text of column 0, expansion flag, child items. *)
Inductive QTreeWidgetItem : Type :=
  Item { text0 : string; isExpanded : bool;
         children : list QTreeWidgetItem }.

(** [QtWidgets.QTreeWidgetItem()] *)
Definition newItem : QTreeWidgetItem := Item "" false [].

Definition setText (s : string) (it : QTreeWidgetItem) : QTreeWidgetItem :=
  Item s (isExpanded it) (children it).

Definition setExpanded (b : bool) (it : QTreeWidgetItem) : QTreeWidgetItem :=
  Item (text0 it) b (children it).

Definition addChild (child it : QTreeWidgetItem) : QTreeWidgetItem :=
  Item (text0 it) (isExpanded it) (children it ++ [child]).

(** [QTreeWidget]: its invisible root item. *)
Record QTreeWidget := TreeWidget { invisibleRootItem : QTreeWidgetItem }.

(** [widget.clear()] removes every item below the root. *)
Definition clear (w : QTreeWidget) : QTreeWidget :=
  let r := invisibleRootItem w in
  TreeWidget (Item (text0 r) (isExpanded r) []).

Definition topLevelItems (w : QTreeWidget) : list QTreeWidgetItem :=
  children (invisibleRootItem w).

Section Projector.

(** Python's [str()] on the values shown as leaves. *)
Variable str : pyvalue → string.

(** [ManagerGui.fillTreeItem].  The source adds a child to [item] and
    then fills it through the same reference; the item returned here
    holds the children as they are when the call returns. *)
Fixpoint fillTreeItem (value : pyvalue) (item : QTreeWidgetItem)
  : QTreeWidgetItem :=
  let item := setExpanded true item in
  match value with
  | VDict kvs | VOrderedDict kvs =>
      fold_left
        (fun item kv =>
           let child := setText (fst kv) newItem in
           addChild (fillTreeItem (snd kv) child) item)
        kvs item
  | VList vs =>
      fold_left
        (fun item val =>
           let child := newItem in
           let child :=
             match val with
             | VDict _ => fillTreeItem val (setText "[dict]" child)
             | VOrderedDict _ => fillTreeItem val (setText "[odict]" child)
             | VList _ => fillTreeItem val (setText "[list]" child)
             | _ => setText (str val) child
             end in
           addChild (setExpanded true child) item)
        vs item
  | _ =>
      let child := setText (str value) newItem in
      addChild child item
  end.

(** The child that the list branch of [fillTreeItem] adds for one
    element. *)
Definition element_item (val : pyvalue) : QTreeWidgetItem :=
  setExpanded true
    match val with
    | VDict _ => fillTreeItem val (setText "[dict]" newItem)
    | VOrderedDict _ => fillTreeItem val (setText "[odict]" newItem)
    | VList _ => fillTreeItem val (setText "[list]" newItem)
    | _ => setText (str val) newItem
    end.

(** The text the list branch of [fillTreeItem] gives the child of one
    element: a type tag for a dict, an OrderedDict or a list, the string
    form otherwise. *)
Definition list_label (val : pyvalue) : string :=
  match val with
  | VDict _ => "[dict]"
  | VOrderedDict _ => "[odict]"
  | VList _ => "[list]"
  | _ => str val
  end.

(** The items the projector puts below a fresh item. *)
Definition projection (value : pyvalue) : list QTreeWidgetItem :=
  children (fillTreeItem value newItem).

(** [ManagerGui.fillTreeWidget] *)
Definition fillTreeWidget (widget : QTreeWidget) (value : pyvalue)
  : QTreeWidget :=
  let widget := clear widget in
  TreeWidget (fillTreeItem value (invisibleRootItem widget)).

End Projector.

(** Every item that has children is expanded, at every depth. *)
Fixpoint all_parents_expanded (it : QTreeWidgetItem) : bool :=
  match it with
  | Item _ expanded cs =>
      (match cs with [] => true | _ :: _ => expanded end)
      && forallb all_parents_expanded cs
  end.

End ConfigTree.

(** * The external manager as the GUI sees it *)

Module Manager.
Import Py.

(** A loaded module object: what its [getState()] does when called. *)
Record Module := { module_class : string; getState : result string }.

(** [manager.tree]: ['defined'] and ['loaded'] map a category to a dict of
    module names; ['global']['startup'] lists the auto-started names. *)
Record ManagerTree := {
  defined : dict (dict ConfigTree.pyvalue);
  loaded : dict (dict Module);
  global_startup : list string }.

(** The manager object shared by the GUI and its module widgets: its tree,
    the file [_getConfigFile()] returns, and the [getState()] calls
    received by its modules, as (category, name), oldest first. *)
Record manager := {
  tree : ManagerTree;
  _getConfigFile : string;
  getState_calls : list (string * string) }.

(** [module.getState()] on the module loaded as [base]/[name]. *)
Definition call_getState (base name : string) (m : Module) : M manager string :=
  fun mgr =>
    (getState m,
     {| tree := tree mgr; _getConfigFile := _getConfigFile mgr;
        getState_calls := getState_calls mgr ++ [(base, name)] |}).

(** The manager replaces its tree (modules were loaded or unloaded, the
    configuration changed). *)
Definition set_tree (tr : ManagerTree) (mgr : manager) : manager :=
  {| tree := tr; _getConfigFile := _getConfigFile mgr;
     getState_calls := getState_calls mgr |}.

End Manager.

(** * [class ModuleListItem] *)

Module ModuleListItem.
Import Py Manager.

(** The widget: category, name, and the texts of its load button and of
    its status label. *)
Record t := {
  base : string;
  name : string;
  loadButton : string;
  statusLabel : string }.

Inductive signal : Type :=
| sigLoadThis (base name : string)
| sigReloadThis (base name : string)
| sigDeactivateThis (base name : string)
| sigCleanupStatus (base name : string).

(** [ModuleListItem.__init__]; [ui_statusLabel] is the label text that
    [ui_module_widget.ui] sets. *)
Definition __init__ (ui_statusLabel basename modulename : string) : t :=
  {| base := basename; name := modulename;
     loadButton := "Load " +:+ modulename;
     statusLabel := ui_statusLabel |}.

Definition loadButton_setText (s : string) (self : t) : t :=
  {| base := base self; name := name self; loadButton := s;
     statusLabel := statusLabel self |}.

Definition statusLabel_setText (s : string) (self : t) : t :=
  {| base := base self; name := name self; loadButton := loadButton self;
     statusLabel := s |}.

(** [loadButtonClicked]: the widget after the click and the signals it
    emitted. *)
Definition loadButtonClicked (self : t) : t * list signal :=
  let emitted := [sigLoadThis (base self) (name self)] in
  if String.eqb (base self) "gui"
  then (loadButton_setText ("Show " +:+ name self) self, emitted)
  else (self, emitted).

Definition reloadButtonClicked (self : t) : t * list signal :=
  (self, [sigReloadThis (base self) (name self)]).

Definition deactivateButtonClicked (self : t) : t * list signal :=
  (self, [sigDeactivateThis (base self) (name self)]).

Definition cleanupButtonClicked (self : t) : t * list signal :=
  (self, [sigCleanupStatus (base self) (name self)]).

Definition error_sentinel : string := "exception, cannot get state".

(** [checkModuleState], run on the shared manager object. *)
Definition checkModuleState (self : t) : M manager t :=
  if negb (String.eqb (statusLabel self) "exception, cannot get state") then
    state ← try_except
      (mgr ← get_self;
       is_loaded ←
         (if contains (loaded (tree mgr)) (base self)
          then d ← lift (getitem (loaded (tree mgr)) (base self));
               mret (contains d (name self))
          else mret false);
       if is_loaded : bool then
         d ← lift (getitem (loaded (tree mgr)) (base self));
         m ← lift (getitem d (name self));
         call_getState (base self) (name self) m
       else mret "not loaded")
      (fun _ => mret "exception, cannot get state");
    mret (statusLabel_setText state self)
  else mret self.

(** Successive poll ticks of one widget; before tick [i] the manager's
    tree is whatever the manager made it, [trees !! i]. *)
Fixpoint poll (trees : list ManagerTree) (self : t) (mgr : manager)
  : t * manager :=
  match trees with
  | [] => (self, mgr)
  | tr :: trees' =>
      let mgr := {| tree := tr; _getConfigFile := _getConfigFile mgr;
                    getState_calls := getState_calls mgr |} in
      match checkModuleState self mgr with
      | (Return self', mgr') => poll trees' self' mgr'
      | (Raise _, mgr') => (self, mgr')
      end
  end.

End ModuleListItem.

(** * [class ManagerGui] *)

Module ManagerGui.
Import Py Manager.

(** Objects bound in the console namespace. *)
Inductive pyobj : Type :=
| ObjModule (m : Module)
| ObjOther (repr : string).

(** Signals of [ManagerGui] with the arguments of one emission. *)
Inductive signal : Type :=
| sigStartAll
| sigStartModule (base name : string)
| sigReloadModule (base name : string)
| sigCleanupStatus (base name : string)
| sigStopModule (base name : string)
| sigLoadConfig (filename : string) (restart : bool)
| sigSaveConfig (filename : string).

Inductive layout : Type := guilayout | logiclayout | hwlayout.

(** [ManagerMainWindow]: the three module layouts hold widgets of
    [modlist], by position in [modlist]; the log widget holds the entries
    given to [addEntry]. *)
Record ManagerMainWindow := {
  layout_widgets : layout → list nat;
  logwidget : list (dict string) }.

(** Answer of [QMessageBox.question]. *)
Inductive StandardButton : Type := Yes | No.

Definition StandardButton_eqb (a b : StandardButton) : bool :=
  match a, b with
  | Yes, Yes | No, No => true
  | _, _ => false
  end.

(** What GitPython finds in the main directory. *)
Record Repo_t := {
  active_branch : result string;   (* [repo.active_branch], by its [str] *)
  head_commit : result string }.   (* [str(repo.head.commit)] *)

(** Second component of the version pair: a [str] or an [int]. *)
Inductive str_or_int : Type :=
| PyStr (s : string)
| PyInt (z : Z).

Record t := {
  _manager : manager;
  _mw : ManagerMainWindow;
  modlist : list ModuleListItem.t;
  modules : gset string;
  namespace : gmap string pyobj;
  (** widgets whose [checkModuleState] is connected to the timer *)
  checkTimer_timeout : list nat;
  (** (widget, its signal, the [ManagerGui] signal it is connected to) *)
  connections : list (nat * string * string);
  (** entries given to [errorDialog.show] *)
  errorDialog : list (dict string);
  (** emissions of the signals of [ManagerGui], oldest first *)
  emitted : list signal;
  stdout : list string }.

Definition set__manager (f : manager → manager) (self : t) : t :=
  {| _manager := f (_manager self); _mw := _mw self;
     modlist := modlist self; modules := modules self;
     namespace := namespace self;
     checkTimer_timeout := checkTimer_timeout self;
     connections := connections self; errorDialog := errorDialog self;
     emitted := emitted self; stdout := stdout self |}.

Definition set__mw (f : ManagerMainWindow → ManagerMainWindow) (self : t) : t :=
  {| _manager := _manager self; _mw := f (_mw self);
     modlist := modlist self; modules := modules self;
     namespace := namespace self;
     checkTimer_timeout := checkTimer_timeout self;
     connections := connections self; errorDialog := errorDialog self;
     emitted := emitted self; stdout := stdout self |}.

Definition set_modlist (f : list ModuleListItem.t → list ModuleListItem.t)
  (self : t) : t :=
  {| _manager := _manager self; _mw := _mw self;
     modlist := f (modlist self); modules := modules self;
     namespace := namespace self;
     checkTimer_timeout := checkTimer_timeout self;
     connections := connections self; errorDialog := errorDialog self;
     emitted := emitted self; stdout := stdout self |}.

Definition set_modules (f : gset string → gset string) (self : t) : t :=
  {| _manager := _manager self; _mw := _mw self;
     modlist := modlist self; modules := f (modules self);
     namespace := namespace self;
     checkTimer_timeout := checkTimer_timeout self;
     connections := connections self; errorDialog := errorDialog self;
     emitted := emitted self; stdout := stdout self |}.

Definition set_namespace (f : gmap string pyobj → gmap string pyobj)
  (self : t) : t :=
  {| _manager := _manager self; _mw := _mw self;
     modlist := modlist self; modules := modules self;
     namespace := f (namespace self);
     checkTimer_timeout := checkTimer_timeout self;
     connections := connections self; errorDialog := errorDialog self;
     emitted := emitted self; stdout := stdout self |}.

Definition set_checkTimer_timeout (f : list nat → list nat) (self : t) : t :=
  {| _manager := _manager self; _mw := _mw self;
     modlist := modlist self; modules := modules self;
     namespace := namespace self;
     checkTimer_timeout := f (checkTimer_timeout self);
     connections := connections self; errorDialog := errorDialog self;
     emitted := emitted self; stdout := stdout self |}.

Definition set_connections
  (f : list (nat * string * string) → list (nat * string * string))
  (self : t) : t :=
  {| _manager := _manager self; _mw := _mw self;
     modlist := modlist self; modules := modules self;
     namespace := namespace self;
     checkTimer_timeout := checkTimer_timeout self;
     connections := f (connections self); errorDialog := errorDialog self;
     emitted := emitted self; stdout := stdout self |}.

Definition set_errorDialog (f : list (dict string) → list (dict string))
  (self : t) : t :=
  {| _manager := _manager self; _mw := _mw self;
     modlist := modlist self; modules := modules self;
     namespace := namespace self;
     checkTimer_timeout := checkTimer_timeout self;
     connections := connections self; errorDialog := f (errorDialog self);
     emitted := emitted self; stdout := stdout self |}.

Definition set_emitted (f : list signal → list signal) (self : t) : t :=
  {| _manager := _manager self; _mw := _mw self;
     modlist := modlist self; modules := modules self;
     namespace := namespace self;
     checkTimer_timeout := checkTimer_timeout self;
     connections := connections self; errorDialog := errorDialog self;
     emitted := f (emitted self); stdout := stdout self |}.

Definition set_stdout (f : list string → list string) (self : t) : t :=
  {| _manager := _manager self; _mw := _mw self;
     modlist := modlist self; modules := modules self;
     namespace := namespace self;
     checkTimer_timeout := checkTimer_timeout self;
     connections := connections self; errorDialog := errorDialog self;
     emitted := emitted self; stdout := f (stdout self) |}.

(** [signal.emit(...)] *)
Definition emit (s : signal) : M t unit :=
  modify (set_emitted (fun l => l ++ [s])).

(** [print(line)] *)
Definition print (line : string) : M t unit :=
  modify (set_stdout (fun l => l ++ [line])).

(** [layout.addWidget(widget)] *)
Definition addWidget (lay : layout) (widget : nat) (mw : ManagerMainWindow)
  : ManagerMainWindow :=
  {| layout_widgets := fun l =>
       match lay, l with
       | guilayout, guilayout | logiclayout, logiclayout
       | hwlayout, hwlayout => layout_widgets mw l ++ [widget]
       | _, _ => layout_widgets mw l
       end;
     logwidget := logwidget mw |}.

(** [logwidget.addEntry(entry)] *)
Definition addEntry (entry : dict string) (mw : ManagerMainWindow)
  : ManagerMainWindow :=
  {| layout_widgets := layout_widgets mw;
     logwidget := logwidget mw ++ [entry] |}.

(** [ManagerGui.__init__] with the objects [on_activate] attaches before
    any of the methods below runs. *)
Definition __init__ (mgr : manager) : t :=
  {| _manager := mgr;
     _mw := {| layout_widgets := fun _ => []; logwidget := [] |};
     modlist := []; modules := ∅; namespace := ∅;
     checkTimer_timeout := []; connections := [];
     errorDialog := []; emitted := []; stdout := [] |}.

(** [handleLogEntry] *)
Definition handleLogEntry (entry : dict string) : M t unit :=
  _ ← modify (set__mw (addEntry entry));
  level ← lift (getitem entry "level");
  if String.eqb level "error" || String.eqb level "critical"
  then modify (set_errorDialog (fun l => l ++ [entry]))
  else mret tt.

(** [updateIPythonModuleList] *)
Definition updateIPythonModuleList : M t unit :=
  self ← get_self;
  let loaded_tree := loaded (tree (_manager self)) in
  acc ← lift
    (for_in ["hardware"; "logic"; "gui"]
       (fun base acc =>
          d ← getitem loaded_tree base;
          for_in (keys d)
            (fun module (acc : gset string * gmap string pyobj) =>
               m ← getitem d module;
               mret ({[module]} ∪ acc.1, <[module := ObjModule m]> acc.2))
            acc)
       (∅, ∅));
  let currentModules : gset string := acc.1 in
  let newNamespace : gmap string pyobj := acc.2 in
  let discard := modules self ∖ currentModules in
  _ ← modify (set_namespace (fun ns => newNamespace ∪ ns));
  _ ← for_each (elements discard)
        (fun module => modify (set_namespace (delete module)));
  modify (set_modules (fun _ => currentModules)).

Section ModuleList.

(** The status text that [ui_module_widget.ui] gives a new widget. *)
Variable ui_statusLabel : string.

(** [fillModuleList] *)
Definition fillModuleList (lay : layout) (base : string) : M t unit :=
  self ← get_self;
  d ← lift (getitem (defined (tree (_manager self))) base);
  for_each (keys d)
    (fun module =>
       self ← get_self;
       if negb (list_contains (global_startup (tree (_manager self))) module)
       then
         let widget := ModuleListItem.__init__ ui_statusLabel base module in
         let i := length (modlist self) in
         _ ← modify (set_modlist (fun l => l ++ [widget]));
         _ ← modify (set__mw (addWidget lay i));
         _ ← modify (set_connections (fun c => c ++
                [(i, "sigLoadThis", "sigStartModule");
                 (i, "sigReloadThis", "sigReloadModule");
                 (i, "sigDeactivateThis", "sigStopModule");
                 (i, "sigCleanupStatus", "sigCleanupStatus")]));
         modify (set_checkTimer_timeout (fun c => c ++ [i]))
       else mret tt).

(** [updateGUIModuleList] *)
Definition updateGUIModuleList : M t unit :=
  _ ← fillModuleList guilayout "gui";
  _ ← fillModuleList logiclayout "logic";
  fillModuleList hwlayout "hardware".

(** The widgets one run of [fillModuleList] creates for the names
    [names] of category [base]. *)
Definition new_widgets (tr : ManagerTree) (base : string)
  (names : list string) : list ModuleListItem.t :=
  map (ModuleListItem.__init__ ui_statusLabel base)
    (filter (fun module => list_contains (global_startup tr) module = false)
       names).

End ModuleList.

(** The module a name stands for in the loaded-module tree: the one of
    category gui, else logic, else hardware. *)
Definition loaded_module (tr : ManagerTree) (name : string) : option Module :=
  let find base := get (loaded tr) base ≫= (fun d => get d name) in
  match find "gui", find "logic" with
  | Some m, _ => Some m
  | None, Some m => Some m
  | None, None => find "hardware"
  end.

(** Number of widgets in [modlist] for the module [name] of category
    [base]. *)
Definition count_items (base name : string) (self : t) : nat :=
  length (filter
    (fun w => ModuleListItem.base w = base ∧ ModuleListItem.name w = name)
    (modlist self)).

(** [getSoftwareVersion]; [Repo] is what [Repo(self.get_main_dir())]
    does: it raises when GitPython is missing or finds no repository. *)
Definition getSoftwareVersion (Repo : result Repo_t)
  : M t (string * str_or_int) :=
  try_except_Exception
    (repo ← lift Repo;
     branch ← lift (active_branch repo);
     rev ← lift (head_commit repo);
     mret (rev, PyStr branch))
    (fun e =>
       _ ← print ("Could not get git repo because: " +:+ exn_str e);
       mret ("unknown", PyInt (-1))).

(** [reloadConfig]; [reply] is the answer to the question box. *)
Definition reloadConfig (reply : StandardButton) : M t unit :=
  self ← get_self;
  let configFile := _getConfigFile (_manager self) in
  let restart := StandardButton_eqb reply Yes in
  emit (sigLoadConfig configFile restart).

(** [getLoadFile]; [filename] is what the file dialog returns, [reply] the
    answer to the question box when it is shown. *)
Definition getLoadFile (filename : string) (reply : StandardButton)
  : M t unit :=
  if negb (String.eqb filename "") then
    let restart := StandardButton_eqb reply Yes in
    emit (sigLoadConfig filename restart)
  else mret tt.

(** [getSaveFile] *)
Definition getSaveFile (filename : string) : M t unit :=
  if negb (String.eqb filename "") then emit (sigSaveConfig filename)
  else mret tt.

(** The [sigLoadConfig] emissions among the emitted signals. *)
Definition loadConfig_requests (self : t) : list (string * bool) :=
  omap (fun s => match s with
                 | sigLoadConfig f r => Some (f, r)
                 | _ => None
                 end) (emitted self).

(** The namespace statements of [startIPython]: the namespace is the
    kernel's [user_ns], updated with [np], [config] and [manager], then
    with [pg] when pyqtgraph was imported, then with the loaded modules.
    (The kernel itself and the logging calls are left out.) *)
Definition startIPython (_has_pyqtgraph : bool)
  (user_ns : gmap string pyobj) : M t unit :=
  _ ← modify (set_namespace (fun _ => user_ns));
  _ ← modify (set_namespace (fun ns =>
         {[ "np" := ObjOther "numpy";
            "config" := ObjOther "manager.tree['defined']";
            "manager" := ObjOther "manager" ]} ∪ ns));
  _ ← (if _has_pyqtgraph
       then modify (set_namespace (<[ "pg" := ObjOther "pyqtgraph" ]>))
       else mret tt);
  updateIPythonModuleList.

(** [handleLogEntry] run on the log entries [entries], one delivery of
    [sigLoggedMessage] after the other. *)
Definition handleLogEntries (entries : list (dict string)) (self : t) : t :=
  fold_left (fun self entry => (handleLogEntry entry self).2) entries self.

(** The level test of [handleLogEntry], on an entry with or without a
    level. *)
Definition is_error_entry (entry : dict string) : bool :=
  match get entry "level" with
  | Some level => String.eqb level "error" || String.eqb level "critical"
  | None => false
  end.

(** Name and arguments of an emission of a widget signal. *)
Definition signal_name (s : ModuleListItem.signal) : string :=
  match s with
  | ModuleListItem.sigLoadThis _ _ => "sigLoadThis"
  | ModuleListItem.sigReloadThis _ _ => "sigReloadThis"
  | ModuleListItem.sigDeactivateThis _ _ => "sigDeactivateThis"
  | ModuleListItem.sigCleanupStatus _ _ => "sigCleanupStatus"
  end.

Definition signal_args (s : ModuleListItem.signal) : string * string :=
  match s with
  | ModuleListItem.sigLoadThis b n | ModuleListItem.sigReloadThis b n
  | ModuleListItem.sigDeactivateThis b n
  | ModuleListItem.sigCleanupStatus b n => (b, n)
  end.

(** The signal of [ManagerGui] with the name [target], emitted with the
    category and name [args]. *)
Definition relayed (target : string) (args : string * string)
  : option signal :=
  if String.eqb target "sigStartModule"
  then Some (sigStartModule args.1 args.2)
  else if String.eqb target "sigReloadModule"
  then Some (sigReloadModule args.1 args.2)
  else if String.eqb target "sigStopModule"
  then Some (sigStopModule args.1 args.2)
  else if String.eqb target "sigCleanupStatus"
  then Some (sigCleanupStatus args.1 args.2)
  else None.

(** Widget [i] of [modlist] emits [s]: every connection made for that
    signal of that widget emits the signal it leads to, in the order of
    connection. *)
Definition relay (i : nat) (s : ModuleListItem.signal) : M t unit :=
  self ← get_self;
  for_each (connections self)
    (fun c =>
       if Nat.eqb c.1.1 i && String.eqb c.1.2 (signal_name s)
       then match relayed c.2 (signal_args s) with
            | Some g => emit g
            | None => mret tt
            end
       else mret tt).

(** A click on a button of widget [i] of [modlist]; [clicked] is the slot
    of the button, one of [loadButtonClicked], [reloadButtonClicked],
    [deactivateButtonClicked] and [cleanupButtonClicked]. *)
Definition click
  (clicked : ModuleListItem.t → ModuleListItem.t * list ModuleListItem.signal)
  (i : nat) : M t unit :=
  self ← get_self;
  match modlist self !! i with
  | Some widget =>
      _ ← modify (set_modlist (<[ i := (clicked widget).1 ]>));
      for_each (clicked widget).2 (relay i)
  | None => mret tt
  end.

(** The timer fires: the [checkModuleState] of every connected widget
    runs, in the order of connection, on the shared manager. *)
Definition timeout : M t unit :=
  self ← get_self;
  for_each (checkTimer_timeout self)
    (fun i =>
       self ← get_self;
       match modlist self !! i with
       | Some widget =>
           match ModuleListItem.checkModuleState widget (_manager self) with
           | (Return widget', mgr') =>
               _ ← modify (set__manager (fun _ => mgr'));
               modify (set_modlist (<[ i := widget' ]>))
           | (Raise e, mgr') =>
               _ ← modify (set__manager (fun _ => mgr'));
               lift (Raise e)
           end
       | None => mret tt
       end).

(** What [fillModuleList] keeps true of the wiring: the widgets of
    [modlist] are, in order and each once, the widgets connected to the
    timer, and each has its four signals connected, once. *)
Definition wired (self : t) : Prop :=
  checkTimer_timeout self = seq 0 (length (modlist self))
  ∧ connections self
    = seq 0 (length (modlist self))
      ≫= fun i => [(i, "sigLoadThis", "sigStartModule");
                   (i, "sigReloadThis", "sigReloadModule");
                   (i, "sigDeactivateThis", "sigStopModule");
                   (i, "sigCleanupStatus", "sigCleanupStatus")].

(** The widget a tick leaves when the manager's tree is [tr]. *)
Definition polled (tr : ManagerTree) (widget : ModuleListItem.t)
  : ModuleListItem.t :=
  match ModuleListItem.checkModuleState widget
          {| tree := tr; _getConfigFile := ""; getState_calls := [] |} with
  | (Return widget', _) => widget'
  | (Raise _, _) => widget
  end.

End ManagerGui.

(** * The console settings of [class ManagerGui] *)

Module ConsoleSettings.

(** The objects the console settings methods use: the status variables,
    the font size of the console widget with the number of its
    [reset_font()] calls, and the value of the font size box of the
    settings dialog. *)
Record t := {
  _statusVariables : gmap string Z;
  consolewidget_font_size : Z;
  consolewidget_reset_font : nat;
  fontSizeBox : Z }.

Section SpinBox.

(** The value the font size box of [ui_console_settings.ui] holds after
    [setProperty('value', v)]. *)
Variable setValue : Z → Z.

(** [consoleSetFontSize] *)
Definition consoleSetFontSize (fontsize : Z) (self : t) : t :=
  {| _statusVariables :=
       <[ "console_font_size" := fontsize ]> (_statusVariables self);
     consolewidget_font_size := fontsize;
     consolewidget_reset_font := S (consolewidget_reset_font self);
     fontSizeBox := fontSizeBox self |}.

(** [consoleKeepSettings] *)
Definition consoleKeepSettings (self : t) : t :=
  {| _statusVariables := _statusVariables self;
     consolewidget_font_size := consolewidget_font_size self;
     consolewidget_reset_font := consolewidget_reset_font self;
     fontSizeBox :=
       match _statusVariables self !! "console_font_size" with
       | Some fontsize => setValue fontsize
       | None => setValue 10
       end |}.

(** [consoleApplySettings] *)
Definition consoleApplySettings (self : t) : t :=
  consoleSetFontSize (fontSizeBox self) self.

(** The settings statements of [startIPythonWidget]: the stored font size
    is applied, a new dialog is created, whose box holds
    [ui_fontSizeBox], and the stored values are written into it. *)
Definition startIPythonWidget (ui_fontSizeBox : Z) (self : t) : t :=
  let self :=
    match _statusVariables self !! "console_font_size" with
    | Some fontsize => consoleSetFontSize fontsize self
    | None => self
    end in
  let self :=
    {| _statusVariables := _statusVariables self;
       consolewidget_font_size := consolewidget_font_size self;
       consolewidget_reset_font := consolewidget_reset_font self;
       fontSizeBox := ui_fontSizeBox |} in
  consoleKeepSettings self.

End SpinBox.

(** The user sets the font size box of the open dialog to [value]. *)
Definition edit_fontSizeBox (value : Z) (self : t) : t :=
  {| _statusVariables := _statusVariables self;
     consolewidget_font_size := consolewidget_font_size self;
     consolewidget_reset_font := consolewidget_reset_font self;
     fontSizeBox := value |}.

End ConsoleSettings.

(** * Concrete inputs *)

Module Samples.
Import Py Manager ConfigTree.

(** A [str()] for the examples: a scalar carries its text, the other
    values shown as leaves are abbreviated. *)
Definition sample_str (v : pyvalue) : string :=
  match v with
  | VScalar _ repr => repr
  | VTuple _ => "(...)"
  | VSet _ => "{...}"
  | VDictSubclass cls _ => cls +:+ "({...})"
  | VListSubclass cls _ => cls +:+ "([...])"
  | VDict _ | VOrderedDict _ => "{...}"
  | VList _ => "[...]"
  end.

(** [{'global': {'startup': ['a']},
      'defined': {'gui': {'a': {}, 'b': {}}}}] as a configuration value. *)
Definition sample_config : pyvalue :=
  VOrderedDict
    [("global", VOrderedDict [("startup", VList [VScalar "str" "a"])]);
     ("defined", VOrderedDict
        [("gui", VOrderedDict [("a", VOrderedDict []);
                               ("b", VOrderedDict [])])])].

(** A tuple holding a dict: a container that is not recursed into. *)
Definition sample_tuple : pyvalue :=
  VTuple [VDict [("k", VScalar "int" "1")]; VScalar "int" "2"].

Definition idle_module : Module :=
  {| module_class := "DummyLogic"; getState := Return "idle" |}.

Definition broken_module : Module :=
  {| module_class := "DummyLogic";
     getState := Raise (Exn true "connection lost") |}.

(** Modules [a] and [b] defined as gui, [a] auto-started, nothing
    loaded. *)
Definition sample_tree : ManagerTree :=
  {| defined := [("hardware", []); ("logic", []);
                 ("gui", [("a", VOrderedDict []); ("b", VOrderedDict [])])];
     loaded := [("hardware", []); ("logic", []); ("gui", [])];
     global_startup := ["a"] |}.

(** The same configuration with [counter] loaded as logic and [a] as
    gui. *)
Definition sample_tree_loaded : ManagerTree :=
  {| defined := defined sample_tree;
     loaded := [("hardware", []); ("logic", [("counter", idle_module)]);
                ("gui", [("a", idle_module)])];
     global_startup := ["a"] |}.

(** The logic module [counter] loaded, its [getState()] raising. *)
Definition sample_tree_broken : ManagerTree :=
  {| defined := defined sample_tree;
     loaded := [("hardware", []); ("logic", [("counter", broken_module)]);
                ("gui", [])];
     global_startup := ["a"] |}.

Definition sample_manager (tr : ManagerTree) : manager :=
  {| tree := tr; _getConfigFile := "config/example/custom.cfg";
     getState_calls := [] |}.

(** The widget of the logic module [counter], as created and as it is
    once it shows the error sentinel. *)
Definition fresh_widget : ModuleListItem.t :=
  ModuleListItem.__init__ "Module status" "logic" "counter".

Definition latched_widget : ModuleListItem.t :=
  ModuleListItem.statusLabel_setText ModuleListItem.error_sentinel
    fresh_widget.

Definition sample_gui : ManagerGui.t :=
  ManagerGui.__init__ (sample_manager sample_tree).

(** A console that tracks the module [old], no longer loaded, and has
    [np] bound, while [counter] and [a] are loaded. *)
Definition sample_console : ManagerGui.t :=
  ManagerGui.set_namespace
    (fun _ => {[ "np" := ManagerGui.ObjOther "numpy";
                 "old" := ManagerGui.ObjModule idle_module ]})
    (ManagerGui.set_modules (fun _ => {[ "old" ]})
       (ManagerGui.__init__ (sample_manager sample_tree_loaded))).

(** The configuration of [sample_tree] with the category logic missing
    from the defined modules and from the loaded ones. *)
Definition sample_tree_no_logic : ManagerTree :=
  {| defined := [("hardware", []);
                 ("gui", [("a", VOrderedDict []); ("b", VOrderedDict [])])];
     loaded := [("hardware", []); ("gui", [("a", idle_module)])];
     global_startup := ["a"] |}.

(** A logic module that is loaded under the name [np]. *)
Definition sample_tree_np : ManagerTree :=
  {| defined := defined sample_tree;
     loaded := [("hardware", []); ("logic", [("np", idle_module)]);
                ("gui", [])];
     global_startup := ["a"] |}.

(** A module whose [getState()] returns the text of the error
    sentinel. *)
Definition sentinel_module : Module :=
  {| module_class := "DummyLogic";
     getState := Return "exception, cannot get state" |}.

Definition sample_tree_sentinel : ManagerTree :=
  {| defined := defined sample_tree;
     loaded := [("hardware", []); ("logic", [("counter", sentinel_module)]);
                ("gui", [])];
     global_startup := ["a"] |}.

(** A spin box with the range 1..99. *)
Definition sample_setValue (v : Z) : Z := Z.max 1 (Z.min 99 v).

Definition sample_settings : ConsoleSettings.t :=
  {| ConsoleSettings._statusVariables := ∅;
     ConsoleSettings.consolewidget_font_size := 9;
     ConsoleSettings.consolewidget_reset_font := 0;
     ConsoleSettings.fontSizeBox := 0 |}.

End Samples.

(** * Properties of the configuration tree projector *)

Module ConfigTreeFacts.
Import ConfigTree.

Section Projector.

Variable str : pyvalue → string.

Lemma fold_left_addChild {A} (f : A → QTreeWidgetItem) (l : list A)
  (it : QTreeWidgetItem) :
  fold_left (fun it x => addChild (f x) it) l it
  = Item (text0 it) (isExpanded it) (children it ++ map f l).
Proof.
  revert it. induction l as [|x l IH]; intros [t e c]; simpl.
  - by rewrite app_nil_r.
  - rewrite IH. simpl. by rewrite <- app_assoc.
Qed.

Lemma fillTreeItem_list (vs : list pyvalue) (item : QTreeWidgetItem) :
  fillTreeItem str (VList vs) item
  = Item (text0 item) true (children item ++ map (element_item str) vs).
Proof.
  simpl.
  exact (fold_left_addChild (element_item str) vs (setExpanded true item)).
Qed.

(** The projector only appends below the item it is given. *)
Lemma fillTreeItem_appends (value : pyvalue) (item : QTreeWidgetItem) :
  fillTreeItem str value item
  = Item (text0 item) true (children item ++ projection str value).
Proof.
  unfold projection.
  destruct value; simpl; try reflexivity.
  - rewrite (fold_left_addChild
               (fun kv => fillTreeItem str kv.2 (setText kv.1 newItem))).
    rewrite (fold_left_addChild
               (fun kv => fillTreeItem str kv.2 (setText kv.1 newItem))).
    reflexivity.
  - rewrite (fold_left_addChild
               (fun kv => fillTreeItem str kv.2 (setText kv.1 newItem))).
    rewrite (fold_left_addChild
               (fun kv => fillTreeItem str kv.2 (setText kv.1 newItem))).
    reflexivity.
  - rewrite (fold_left_addChild (element_item str)).
    rewrite (fold_left_addChild (element_item str)).
    reflexivity.
Qed.

(** C6: projecting a configuration value into the tree widget twice in a
    row gives the tree the first projection gave; the items shown are
    the projection of the value alone, whatever the widget held before,
    since [fillTreeWidget] clears the widget first. *)
Theorem fillTreeWidget_reprojection (w w' : QTreeWidget) (T : pyvalue) :
  fillTreeWidget str (fillTreeWidget str w T) T = fillTreeWidget str w T
  ∧ topLevelItems (fillTreeWidget str w T) = projection str T
  ∧ topLevelItems (fillTreeWidget str w T)
    = topLevelItems (fillTreeWidget str w' T).
Proof.
  unfold fillTreeWidget, topLevelItems, clear. simpl.
  rewrite !(fillTreeItem_appends T (Item _ _ [])). simpl.
  repeat split; reflexivity.
Qed.

(** C9: a value whose exact type is not dict, OrderedDict or list (a
    tuple, a set, an instance of a subclass of dict or list, a scalar)
    gets exactly one leaf child labelled with its string form; as an
    element of a list it is one leaf labelled with its string form, with
    no type tag and nothing below it, and a list gets one child per
    element. *)
Theorem fillTreeItem_other_type_is_leaf (value : pyvalue)
  (item : QTreeWidgetItem) (before after : list pyvalue) :
  type_is_dict_odict_or_list value = false →
  fillTreeItem str value item
  = Item (text0 item) true (children item ++ [Item (str value) false []])
  ∧ children (fillTreeItem str (VList (before ++ value :: after)) item)
      !! (length (children item) + length before)
    = Some (Item (str value) true [])
  ∧ length (children
              (fillTreeItem str (VList (before ++ value :: after)) item))
    = length (children item) + length (before ++ value :: after).
Proof.
  intros Hty. split; [|split].
  - destruct value; try discriminate Hty; reflexivity.
  - rewrite fillTreeItem_list. simpl.
    rewrite lookup_app_r by lia.
    replace (length (children item) + length before
             - length (children item)) with (length before) by lia.
    rewrite map_app. simpl.
    rewrite lookup_app_r by (rewrite length_map; lia).
    rewrite length_map, Nat.sub_diag. simpl.
    destruct value; try discriminate Hty; reflexivity.
  - rewrite fillTreeItem_list. simpl.
    by rewrite length_app, length_map.
Qed.

End Projector.

Lemma fillTreeItem_other_type_is_leaf_witness :
  type_is_dict_odict_or_list Samples.sample_tuple = false
  ∧ fillTreeItem Samples.sample_str Samples.sample_tuple
      (Item "root" false [Item "old" false []])
    = Item "root" true [Item "old" false []; Item "(...)" false []]
  ∧ children
      (fillTreeItem Samples.sample_str
         (VList ([VDict []] ++ Samples.sample_tuple :: [VScalar "int" "3"]))
         (Item "root" false [Item "old" false []])) !! 2
    = Some (Item "(...)" true [])
  ∧ length
      (children
         (fillTreeItem Samples.sample_str
            (VList ([VDict []] ++ Samples.sample_tuple
                    :: [VScalar "int" "3"]))
            (Item "root" false [Item "old" false []])))
    = 4.
Proof.
  split; [reflexivity|].
  exact (fillTreeItem_other_type_is_leaf Samples.sample_str
           Samples.sample_tuple (Item "root" false [Item "old" false []])
           [VDict []] [VScalar "int" "3"] eq_refl).
Defined.

Example projection_sample_config :
  projection Samples.sample_str Samples.sample_config
  = [Item "global" true
       [Item "startup" true [Item "a" true []]];
     Item "defined" true
       [Item "gui" true [Item "a" true []; Item "b" true []]]].
Proof. reflexivity. Qed.

End ConfigTreeFacts.

(** * Properties of the module widgets *)

Module ModuleListItemFacts.
Import Py Manager ModuleListItem.

(** A latched widget ignores the tick. *)
Lemma checkModuleState_latched (self : t) (mgr : manager) :
  statusLabel self = error_sentinel →
  checkModuleState self mgr = (Return self, mgr).
Proof.
  intros H. unfold checkModuleState. rewrite H. reflexivity.
Qed.

(** A tick on a widget that is not latched: the three cases of the
    [try] block. *)
Lemma checkModuleState_polled (self : t) (mgr : manager) :
  statusLabel self ≠ error_sentinel →
  checkModuleState self mgr =
    match get (loaded (tree mgr)) (base self) ≫= (fun d => get d (name self))
    with
    | None => (Return (statusLabel_setText "not loaded" self), mgr)
    | Some m =>
        (Return (statusLabel_setText
                   match getState m with
                   | Return state => state
                   | Raise _ => error_sentinel
                   end self),
         {| tree := tree mgr; _getConfigFile := _getConfigFile mgr;
            getState_calls :=
              getState_calls mgr ++ [(base self, name self)] |})
    end.
Proof.
  intros H. unfold checkModuleState.
  destruct (String.eqb_spec (statusLabel self) "exception, cannot get state")
    as [E|_]; [by destruct H|].
  cbn [negb].
  unfold mbind, M_bind, try_except, get_self, lift, mret, M_ret,
    call_getState, contains, getitem.
  destruct (get (loaded (tree mgr)) (base self)) as [d|]; cbn; [|done].
  destruct (get d (name self)) as [m|]; cbn; [|done].
  destruct (getState m); done.
Qed.

Lemma poll_latched (trees : list ManagerTree) (self : t) (mgr : manager) :
  statusLabel self = error_sentinel →
  (poll trees self mgr).1 = self
  ∧ getState_calls (poll trees self mgr).2 = getState_calls mgr.
Proof.
  intros H. revert mgr. induction trees as [|tr trees IH]; intros mgr.
  - done.
  - cbn [poll]. rewrite checkModuleState_latched by done.
    destruct (IH {| tree := tr; _getConfigFile := _getConfigFile mgr;
                    getState_calls := getState_calls mgr |}) as [-> ->].
    done.
Qed.

(** C3: a widget that shows the error sentinel is not polled again: any
    number of later ticks, whatever the manager's tree becomes, leave the
    widget as it is and call no [getState()].  When the widget is not
    latched and its module's [getState()] raises, that tick queries the
    module once and shows the error sentinel, and from then on the widget
    is latched. *)
Theorem checkModuleState_error_latch (self : t) (mgr : manager)
  (trees : list ManagerTree) :
  (statusLabel self = error_sentinel →
   checkModuleState self mgr = (Return self, mgr)
   ∧ (poll trees self mgr).1 = self
   ∧ getState_calls (poll trees self mgr).2 = getState_calls mgr)
  ∧ (∀ (d : dict Module) (m : Module) (e : exn),
       statusLabel self ≠ error_sentinel →
       get (loaded (tree mgr)) (base self) = Some d →
       get d (name self) = Some m →
       getState m = Raise e →
       ∃ (self1 : t) (mgr1 : manager),
         checkModuleState self mgr = (Return self1, mgr1)
         ∧ statusLabel self1 = error_sentinel
         ∧ getState_calls mgr1
           = getState_calls mgr ++ [(base self, name self)]
         ∧ (poll trees self1 mgr1).1 = self1
         ∧ getState_calls (poll trees self1 mgr1).2 = getState_calls mgr1).
Proof.
  split.
  - intros H. split; [by apply checkModuleState_latched|].
    by apply poll_latched.
  - intros d m e Hne Hd Hm He.
    rewrite checkModuleState_polled by done.
    rewrite Hd. cbn. rewrite Hm, He.
    eexists _, _. split; [reflexivity|].
    split; [reflexivity|]. split; [reflexivity|].
    by apply poll_latched.
Qed.

(** C4: a tick on a widget that is not latched and whose module is not in
    the loaded-module tree shows 'not loaded'; the manager is left as it
    was: its tree is not written and no [getState()] is called. *)
Theorem checkModuleState_not_loaded (self : t) (mgr : manager) :
  statusLabel self ≠ error_sentinel →
  get (loaded (tree mgr)) (base self) ≫= (fun d => get d (name self)) = None →
  ∃ self1 : t,
    checkModuleState self mgr = (Return self1, mgr)
    ∧ statusLabel self1 = "not loaded"
    ∧ base self1 = base self ∧ name self1 = name self
    ∧ loadButton self1 = loadButton self.
Proof.
  intros Hne Habs. rewrite checkModuleState_polled by done.
  rewrite Habs. by eexists.
Qed.

(** C5: a click on the load button emits [sigLoadThis] with the widget's
    category and name; the button text becomes 'Show <name>' when the
    category is 'gui' and is left as it is otherwise, so that on a new
    widget 'Load <name>' is replaced exactly for the category 'gui'. *)
Theorem loadButtonClicked_relabels_gui_only (self : t)
  (ui_statusLabel basename modulename : string) :
  (loadButtonClicked self).2 = [sigLoadThis (base self) (name self)]
  ∧ loadButton (loadButtonClicked self).1
    = (if decide (base self = "gui") then "Show " +:+ name self
       else loadButton self)
  ∧ statusLabel (loadButtonClicked self).1 = statusLabel self
  ∧ loadButton (__init__ ui_statusLabel basename modulename)
    = "Load " +:+ modulename
  ∧ (loadButton
       (loadButtonClicked (__init__ ui_statusLabel basename modulename)).1
     = "Show " +:+ modulename ↔ basename = "gui")
  ∧ (loadButton
       (loadButtonClicked (__init__ ui_statusLabel basename modulename)).1
     = "Load " +:+ modulename ↔ basename ≠ "gui").
Proof.
  unfold loadButtonClicked.
  split; [by destruct (String.eqb _ _)|].
  split; [|split; [by destruct (String.eqb _ _)|]].
  - destruct (String.eqb_spec (base self) "gui"); by case_decide.
  - split; [done|]. cbn.
    destruct (String.eqb_spec basename "gui") as [->|Hne]; cbn.
    + split; split; intros H; done.
    + split; split; intros H; done.
Qed.

Lemma checkModuleState_error_latch_witness :
  (statusLabel Samples.latched_widget = error_sentinel
   ∧ checkModuleState Samples.latched_widget
       (Samples.sample_manager Samples.sample_tree_loaded)
     = (Return Samples.latched_widget,
        Samples.sample_manager Samples.sample_tree_loaded)
   ∧ (poll [Samples.sample_tree_loaded; Samples.sample_tree_broken]
        Samples.latched_widget
        (Samples.sample_manager Samples.sample_tree_loaded)).1
     = Samples.latched_widget
   ∧ getState_calls
       (poll [Samples.sample_tree_loaded; Samples.sample_tree_broken]
          Samples.latched_widget
          (Samples.sample_manager Samples.sample_tree_loaded)).2
     = [])
  ∧ (statusLabel Samples.fresh_widget ≠ error_sentinel
     ∧ getState Samples.broken_module
       = Raise (Exn true "connection lost")
     ∧ ∃ (self1 : t) (mgr1 : manager),
         checkModuleState Samples.fresh_widget
           (Samples.sample_manager Samples.sample_tree_broken)
         = (Return self1, mgr1)
         ∧ statusLabel self1 = error_sentinel
         ∧ getState_calls mgr1 = [] ++ [("logic", "counter")]
         ∧ (poll [Samples.sample_tree_loaded; Samples.sample_tree_broken]
              self1 mgr1).1 = self1
         ∧ getState_calls
             (poll [Samples.sample_tree_loaded; Samples.sample_tree_broken]
                self1 mgr1).2
           = getState_calls mgr1).
Proof.
  split.
  - split; [reflexivity|].
    exact (proj1 (checkModuleState_error_latch Samples.latched_widget
                    (Samples.sample_manager Samples.sample_tree_loaded)
                    [Samples.sample_tree_loaded; Samples.sample_tree_broken])
             eq_refl).
  - split; [discriminate|]. split; [reflexivity|].
    refine (proj2 (checkModuleState_error_latch Samples.fresh_widget
                     (Samples.sample_manager Samples.sample_tree_broken)
                     [Samples.sample_tree_loaded; Samples.sample_tree_broken])
              [("counter", Samples.broken_module)] Samples.broken_module
              (Exn true "connection lost") _ eq_refl eq_refl eq_refl).
    discriminate.
Defined.

Lemma checkModuleState_not_loaded_witness :
  statusLabel Samples.fresh_widget ≠ error_sentinel
  ∧ get (loaded (tree (Samples.sample_manager Samples.sample_tree)))
      (base Samples.fresh_widget)
    ≫= (fun d => get d (name Samples.fresh_widget)) = None
  ∧ ∃ self1 : t,
      checkModuleState Samples.fresh_widget
        (Samples.sample_manager Samples.sample_tree)
      = (Return self1, Samples.sample_manager Samples.sample_tree)
      ∧ statusLabel self1 = "not loaded"
      ∧ base self1 = "logic" ∧ name self1 = "counter"
      ∧ loadButton self1 = "Load counter".
Proof.
  split; [discriminate|]. split; [reflexivity|].
  refine (checkModuleState_not_loaded Samples.fresh_widget
            (Samples.sample_manager Samples.sample_tree) _ eq_refl).
  discriminate.
Defined.

Example poll_sample_trace :
  poll [Samples.sample_tree; Samples.sample_tree_loaded;
        Samples.sample_tree_broken; Samples.sample_tree_loaded]
    Samples.fresh_widget (Samples.sample_manager Samples.sample_tree)
  = (Samples.latched_widget,
     {| tree := Samples.sample_tree_loaded;
        _getConfigFile := "config/example/custom.cfg";
        getState_calls := [("logic", "counter"); ("logic", "counter")] |}).
Proof. reflexivity. Qed.

End ModuleListItemFacts.

(** * Properties of the command dispatcher *)

Module DispatcherFacts.
Import Py Manager ManagerGui.

(** C7: [handleLogEntry] appends the entry to the log widget, and hands
    it to the error dialog exactly when its level is 'error' or
    'critical'; every such entry is handed over, also one that was handed
    over before. *)
Theorem handleLogEntry_popup_iff_error (entry : dict string) (self : t) :
  logwidget (_mw (handleLogEntry entry self).2)
  = logwidget (_mw self) ++ [entry]
  ∧ errorDialog (handleLogEntry entry self).2
    = errorDialog self
      ++ (if decide (get entry "level" = Some "error"
                     ∨ get entry "level" = Some "critical")
          then [entry] else [])
  ∧ (get entry "level" = Some "info" →
     errorDialog (handleLogEntry entry self).2 = errorDialog self)
  ∧ (get entry "level" = Some "error" ∨ get entry "level" = Some "critical" →
     errorDialog (handleLogEntry entry (handleLogEntry entry self).2).2
     = errorDialog self ++ [entry; entry]).
Proof.
  assert (Hgen : ∀ self0 : t,
    logwidget (_mw (handleLogEntry entry self0).2)
    = logwidget (_mw self0) ++ [entry]
    ∧ errorDialog (handleLogEntry entry self0).2
      = errorDialog self0
        ++ (if decide (get entry "level" = Some "error"
                       ∨ get entry "level" = Some "critical")
            then [entry] else [])).
  { intros self0.
    unfold handleLogEntry, mbind, M_bind, modify, lift, getitem, mret, M_ret.
    cbn.
    destruct (get entry "level") as [level|]; cbn.
    - destruct (String.eqb_spec level "error") as [->|Hne1]; cbn.
      { split; [done|]. case_decide as H; [done|]. destruct H; by left. }
      destruct (String.eqb_spec level "critical") as [->|Hne2]; cbn.
      { split; [done|]. case_decide as H; [done|]. destruct H; by right. }
      split; [done|]. case_decide as H; [|by rewrite app_nil_r].
      destruct H as [[=]|[=]]; congruence.
    - split; [done|]. case_decide as H; [|by rewrite app_nil_r].
      by destruct H. }
  destruct (Hgen self) as [Hlog Hdlg].
  split; [done|]. split; [done|]. split.
  - intros Hinfo. rewrite Hdlg.
    destruct (decide _) as [[H|H]|_]; [congruence..|by rewrite app_nil_r].
  - intros Hlevel.
    destruct (Hgen (handleLogEntry entry self).2) as [_ Hdlg2].
    rewrite Hdlg2, Hdlg. destruct (decide _) as [_|H]; [|done].
    by rewrite <- app_assoc.
Qed.

Lemma handleLogEntry_popup_iff_error_witness :
  (get [("level", "info"); ("message", "started")] "level" = Some "info"
   ∧ errorDialog
       (handleLogEntry [("level", "info"); ("message", "started")]
          Samples.sample_gui).2
     = [])
  ∧ (get [("level", "error"); ("message", "failed")] "level" = Some "error"
     ∧ errorDialog
         (handleLogEntry [("level", "error"); ("message", "failed")]
            (handleLogEntry [("level", "error"); ("message", "failed")]
               Samples.sample_gui).2).2
       = [] ++ [[("level", "error"); ("message", "failed")];
                [("level", "error"); ("message", "failed")]]).
Proof.
  split.
  - split; [reflexivity|].
    exact (proj1 (proj2 (proj2 (handleLogEntry_popup_iff_error
             [("level", "info"); ("message", "started")]
             Samples.sample_gui))) eq_refl).
  - split; [reflexivity|].
    exact (proj2 (proj2 (proj2 (handleLogEntry_popup_iff_error
             [("level", "error"); ("message", "failed")]
             Samples.sample_gui))) (or_introl eq_refl)).
Defined.

(** C8: when the lookup of the repository, of its active branch or of its
    head commit raises an [Exception], [getSoftwareVersion] prints the
    exception and returns [('unknown', -1)]; when all three succeed it
    returns the revision and the branch as strings and prints nothing. *)
Theorem getSoftwareVersion_sentinel_on_failure (Repo : result Repo_t)
  (self : t) :
  (∀ (repo : Repo_t) (branch rev : string),
     Repo = Return repo →
     active_branch repo = Return branch →
     head_commit repo = Return rev →
     getSoftwareVersion Repo self = (Return (rev, PyStr branch), self))
  ∧ (∀ e : exn,
       is_Exception e = true →
       (Repo = Raise e
        ∨ (∃ repo, Repo = Return repo ∧ active_branch repo = Raise e)
        ∨ (∃ repo branch, Repo = Return repo
                          ∧ active_branch repo = Return branch
                          ∧ head_commit repo = Raise e)) →
       getSoftwareVersion Repo self
       = (Return ("unknown", PyInt (-1)),
          set_stdout
            (fun l => l ++ ["Could not get git repo because: "
                            +:+ exn_str e]) self)).
Proof.
  split.
  - intros repo branch rev -> Hb Hr.
    unfold getSoftwareVersion, try_except_Exception, try_except, mbind,
      M_bind, lift. cbn. by rewrite Hb, Hr.
  - intros e He Hfail.
    unfold getSoftwareVersion, try_except_Exception, try_except, mbind,
      M_bind, lift, print, modify. cbn.
    destruct Hfail as [->|[(repo & -> & Hb)|(repo & branch & -> & Hb & Hr)]].
    + cbn. by rewrite He.
    + rewrite Hb. cbn. by rewrite He.
    + rewrite Hb, Hr. cbn. by rewrite He.
Qed.

Lemma getSoftwareVersion_sentinel_on_failure_witness :
  getSoftwareVersion
    (Return {| active_branch := Return "master";
               head_commit := Return "0a1b2c3" |}) Samples.sample_gui
  = (Return ("0a1b2c3", PyStr "master"), Samples.sample_gui)
  ∧ (is_Exception (Exn true "name 'Repo' is not defined") = true
     ∧ getSoftwareVersion (Raise (Exn true "name 'Repo' is not defined"))
         Samples.sample_gui
       = (Return ("unknown", PyInt (-1)),
          set_stdout
            (fun l => l ++ ["Could not get git repo because: "
                            +:+ "name 'Repo' is not defined"])
            Samples.sample_gui)).
Proof.
  split.
  - exact (proj1 (getSoftwareVersion_sentinel_on_failure
             (Return {| active_branch := Return "master";
                        head_commit := Return "0a1b2c3" |})
             Samples.sample_gui)
             _ "master" "0a1b2c3" eq_refl eq_refl eq_refl).
  - split; [reflexivity|].
    exact (proj2 (getSoftwareVersion_sentinel_on_failure
             (Raise (Exn true "name 'Repo' is not defined"))
             Samples.sample_gui)
             (Exn true "name 'Repo' is not defined") eq_refl
             (or_introl eq_refl)).
Defined.

(** C1 as stated fails: answering No to the question of [reloadConfig],
    or to that of [getLoadFile] after choosing a file, still emits
    [sigLoadConfig]. *)
Lemma declining_still_emits_sigLoadConfig :
  loadConfig_requests (reloadConfig No Samples.sample_gui).2
  = [("config/example/custom.cfg", false)]
  ∧ loadConfig_requests (getLoadFile "config/other.cfg" No Samples.sample_gui).2
    = [("config/other.cfg", false)]
  ∧ loadConfig_requests Samples.sample_gui = []
  ∧ ¬ (∀ self : t,
         loadConfig_requests (reloadConfig No self).2
         = loadConfig_requests self)
  ∧ ¬ (∀ (filename : string) (self : t),
         loadConfig_requests (getLoadFile filename No self).2
         = loadConfig_requests self).
Proof.
  split; [reflexivity|]. split; [reflexivity|]. split; [reflexivity|].
  split.
  - intros H. specialize (H Samples.sample_gui). discriminate H.
  - intros H. specialize (H "config/other.cfg" Samples.sample_gui).
    discriminate H.
Qed.

(** C1, amended: [reloadConfig] always emits one [sigLoadConfig] with the
    current configuration file, and [getLoadFile] emits one with the
    chosen file unless the file dialog returned the empty string, in
    which case it emits nothing; the answer to the question only sets the
    restart flag of the emission: true for Yes, false for No. *)
Theorem confirmation_sets_restart_flag (reply : StandardButton)
  (filename : string) (self : t) :
  reloadConfig reply self
  = (Return tt,
     set_emitted
       (fun l => l ++ [sigLoadConfig (_getConfigFile (_manager self))
                         (if reply is Yes then true else false)]) self)
  ∧ loadConfig_requests (reloadConfig reply self).2
    = loadConfig_requests self
      ++ [(_getConfigFile (_manager self),
           if reply is Yes then true else false)]
  ∧ getLoadFile filename reply self
    = (if decide (filename = "") then (Return tt, self)
       else (Return tt,
             set_emitted
               (fun l => l ++ [sigLoadConfig filename
                                 (if reply is Yes then true else false)])
               self))
  ∧ loadConfig_requests (getLoadFile filename reply self).2
    = loadConfig_requests self
      ++ (if decide (filename = "") then []
          else [(filename, (if reply is Yes then true else false))]).
Proof.
  assert (Hreq : ∀ f r,
    loadConfig_requests (set_emitted (fun l => l ++ [sigLoadConfig f r]) self)
    = loadConfig_requests self ++ [(f, r)]).
  { intros f r. unfold loadConfig_requests. cbn. by rewrite omap_app. }
  assert (Hflag : StandardButton_eqb reply Yes
                  = (if reply is Yes then true else false)).
  { by destruct reply. }
  assert (H1 : reloadConfig reply self
    = (Return tt,
       set_emitted
         (fun l => l ++ [sigLoadConfig (_getConfigFile (_manager self))
                           (if reply is Yes then true else false)]) self)).
  { unfold reloadConfig, emit, mbind, M_bind, get_self, modify.
    cbn. by rewrite Hflag. }
  assert (H3 : getLoadFile filename reply self
    = (if decide (filename = "") then (Return tt, self)
       else (Return tt,
             set_emitted
               (fun l => l ++ [sigLoadConfig filename
                                 (if reply is Yes then true else false)])
               self))).
  { unfold getLoadFile, emit, modify. rewrite Hflag.
    destruct (String.eqb_spec filename "") as [->|Hne]; cbn; [done|].
    by destruct (decide _). }
  split; [exact H1|]. split; [by rewrite H1, <- Hreq|].
  split; [exact H3|]. rewrite H3.
  destruct (decide _); cbn [snd]; [by rewrite app_nil_r|apply Hreq].
Qed.

End DispatcherFacts.

(** * Properties of the module list *)

Module ModuleListFacts.
Import Py Manager ManagerGui.

Section ModuleList.

Variable ui_statusLabel : string.

(** The loop of [fillModuleList] appends one widget per name that is
    not auto-started and leaves the manager alone. *)
Lemma fillModuleList_loop (lay : layout) (base : string)
  (names : list string) (self : t) :
  ∃ self' : t,
    for_each names
      (fun module =>
         self ← get_self;
         if negb (list_contains (global_startup (tree (_manager self)))
                    module)
         then
           let widget :=
             ModuleListItem.__init__ ui_statusLabel base module in
           let i := length (modlist self) in
           _ ← modify (set_modlist (fun l => l ++ [widget]));
           _ ← modify (set__mw (addWidget lay i));
           _ ← modify (set_connections (fun c => c ++
                  [(i, "sigLoadThis", "sigStartModule");
                   (i, "sigReloadThis", "sigReloadModule");
                   (i, "sigDeactivateThis", "sigStopModule");
                   (i, "sigCleanupStatus", "sigCleanupStatus")]));
           modify (set_checkTimer_timeout (fun c => c ++ [i]))
         else mret tt) self
    = (Return tt, self')
    ∧ modlist self'
      = modlist self
        ++ new_widgets ui_statusLabel (tree (_manager self)) base names
    ∧ _manager self' = _manager self.
Proof.
  match goal with
  | |- context [for_each _ ?b _] => set (body := b)
  end.
  assert (Hstep : ∀ (module : string) (s : t),
    ∃ s1 : t,
      body module s = (Return tt, s1)
      ∧ modlist s1
        = modlist s
          ++ new_widgets ui_statusLabel (tree (_manager s)) base [module]
      ∧ _manager s1 = _manager s).
  { intros module s. exists (body module s).2.
    unfold body, new_widgets, mbind, M_bind, get_self, modify.
    rewrite filter_cons. cbn [filter list_filter].
    destruct (list_contains (global_startup (tree (_manager s))) module);
      cbn [negb].
    - rewrite decide_False by done. cbn. by rewrite app_nil_r.
    - rewrite decide_True by done. done. }
  clearbody body.
  revert self. induction names as [|module names IH]; intros self.
  - exists self. cbn. by rewrite app_nil_r.
  - destruct (Hstep module self) as (s1 & E1 & M1 & G1).
    destruct (IH s1) as (self' & E & Hml & Hmgr).
    exists self'. split; [|split; [|congruence]].
    + cbn [for_each]. unfold mbind, M_bind. by rewrite E1.
    + rewrite Hml, M1, G1. unfold new_widgets.
      rewrite (filter_cons _ module names), !filter_cons, filter_nil.
      destruct (decide _); cbn; by rewrite <- app_assoc.
Qed.

Lemma fillModuleList_appends (lay : layout) (base : string)
  (d : dict ConfigTree.pyvalue) (self : t) :
  get (defined (tree (_manager self))) base = Some d →
  ∃ self' : t,
    fillModuleList ui_statusLabel lay base self = (Return tt, self')
    ∧ modlist self'
      = modlist self
        ++ new_widgets ui_statusLabel (tree (_manager self)) base (keys d)
    ∧ _manager self' = _manager self.
Proof.
  intros Hd. unfold fillModuleList.
  unfold mbind at 1, M_bind at 1, get_self at 1.
  unfold mbind at 1, M_bind at 1, lift, getitem. rewrite Hd.
  apply fillModuleList_loop.
Qed.

(** One run of [updateGUIModuleList] appends the widgets of the three
    categories to [modlist]; nothing is removed. *)
Lemma updateGUIModuleList_appends (gui logic hardware : dict ConfigTree.pyvalue)
  (self : t) :
  get (defined (tree (_manager self))) "gui" = Some gui →
  get (defined (tree (_manager self))) "logic" = Some logic →
  get (defined (tree (_manager self))) "hardware" = Some hardware →
  ∃ self' : t,
    updateGUIModuleList ui_statusLabel self = (Return tt, self')
    ∧ modlist self'
      = modlist self
        ++ (new_widgets ui_statusLabel (tree (_manager self)) "gui"
              (keys gui)
            ++ new_widgets ui_statusLabel (tree (_manager self)) "logic"
                 (keys logic)
            ++ new_widgets ui_statusLabel (tree (_manager self)) "hardware"
                 (keys hardware))
    ∧ _manager self' = _manager self.
Proof.
  intros Hg Hl Hh. unfold updateGUIModuleList.
  destruct (fillModuleList_appends guilayout "gui" gui self Hg)
    as (s1 & E1 & M1 & G1).
  unfold mbind at 1, M_bind at 1. rewrite E1.
  rewrite <- G1 in Hl, Hh.
  destruct (fillModuleList_appends logiclayout "logic" logic s1 Hl)
    as (s2 & E2 & M2 & G2).
  unfold mbind at 1, M_bind at 1. rewrite E2.
  rewrite <- G2 in Hh.
  destruct (fillModuleList_appends hwlayout "hardware" hardware s2 Hh)
    as (s3 & E3 & M3 & G3).
  exists s3. split; [exact E3|]. split; [|congruence].
  rewrite M3, M2, M1, G2, G1. by rewrite <- !app_assoc.
Qed.

(** X24: [updateGUIModuleList] only ever appends.  Run again on the same
    tree, it returns and appends the widgets of the first run once more
    behind them; no widget is removed or replaced. *)
Lemma updateGUIModuleList_again (gui logic hardware : dict ConfigTree.pyvalue)
  (self : t) :
  get (defined (tree (_manager self))) "gui" = Some gui →
  get (defined (tree (_manager self))) "logic" = Some logic →
  get (defined (tree (_manager self))) "hardware" = Some hardware →
  ∃ self1 self2 : t,
    updateGUIModuleList ui_statusLabel self = (Return tt, self1)
    ∧ updateGUIModuleList ui_statusLabel self1 = (Return tt, self2)
    ∧ ∃ new : list ModuleListItem.t,
        modlist self1 = modlist self ++ new
        ∧ modlist self2 = modlist self ++ new ++ new.
Proof.
  intros Hg Hl Hh.
  destruct (updateGUIModuleList_appends gui logic hardware self Hg Hl Hh)
    as (s1 & E1 & M1 & G1).
  rewrite <- G1 in Hg, Hl, Hh.
  destruct (updateGUIModuleList_appends gui logic hardware s1 Hg Hl Hh)
    as (s2 & E2 & M2 & G2).
  exists s1, s2. split; [done|]. split; [done|].
  eexists. split; [exact M1|]. rewrite M2, M1, G1.
  by rewrite <- app_assoc.
Qed.

(** Widgets for ([base], [name]) among those one run creates for the
    category [b]. *)
Lemma count_new_widgets (tr : ManagerTree) (b base name : string)
  (names : list string) :
  length (filter
    (fun w => ModuleListItem.base w = base ∧ ModuleListItem.name w = name)
    (new_widgets ui_statusLabel tr b names))
  = if decide (b = base)
    then length (filter (fun module => module = name)
           (filter (fun module =>
                      list_contains (global_startup tr) module = false)
              names))
    else 0.
Proof.
  unfold new_widgets.
  induction (filter (fun module =>
               list_contains (global_startup tr) module = false) names)
    as [|module l IH]; cbn [map].
  - by destruct (decide _).
  - rewrite !filter_cons. cbn [ModuleListItem.base ModuleListItem.name
      ModuleListItem.__init__].
    destruct (decide (b = base)) as [->|Hb].
    + destruct (decide (module = name)) as [->|Hn].
      * rewrite decide_True by done. cbn. by rewrite IH.
      * rewrite decide_False by (by intros [_ ?]). exact IH.
    + rewrite decide_False by (by intros [? _]). exact IH.
Qed.

Lemma count_NoDup (name : string) (l : list string) :
  NoDup l → name ∈ l →
  length (filter (fun module => module = name) l) = 1.
Proof.
  induction 1 as [|x l Hx Hnd IH]; [by intros ?%elem_of_nil|].
  rewrite filter_cons. intros [->|Hin]%elem_of_cons.
  - rewrite decide_True by done. cbn. f_equal.
    destruct (filter (fun module => module = x) l) as [|y l'] eqn:E;
      [done|].
    assert (Hy : y ∈ filter (fun module => module = x) l)
      by (rewrite E; left).
    apply list_elem_of_filter in Hy as [-> Hy]. done.
  - rewrite decide_False; [by apply IH|]. by intros ->.
Qed.

(** X23: starting from an empty [modlist], one run of [updateGUIModuleList]
    leaves exactly one widget for every module that is defined in a
    category and not auto-started, provided a name is defined in one
    category only once (which holds of a dict). *)
Lemma updateGUIModuleList_first_run
  (gui logic hardware : dict ConfigTree.pyvalue) (self : t)
  (base name : string) (d : dict ConfigTree.pyvalue) :
  modlist self = [] →
  get (defined (tree (_manager self))) "gui" = Some gui →
  get (defined (tree (_manager self))) "logic" = Some logic →
  get (defined (tree (_manager self))) "hardware" = Some hardware →
  NoDup (keys gui) → NoDup (keys logic) → NoDup (keys hardware) →
  (base, d) ∈ [("gui", gui); ("logic", logic); ("hardware", hardware)] →
  name ∈ keys d →
  list_contains (global_startup (tree (_manager self))) name = false →
  (updateGUIModuleList ui_statusLabel self).1 = Return tt
  ∧ count_items base name (updateGUIModuleList ui_statusLabel self).2 = 1.
Proof.
  intros Hnil Hg Hl Hh Ng Nl Nh Hbase Hname Hstart.
  destruct (updateGUIModuleList_appends gui logic hardware self Hg Hl Hh)
    as (s1 & E1 & M1 & _).
  rewrite E1. split; [done|]. cbn [snd].
  unfold count_items. rewrite M1, Hnil. cbn [app].
  rewrite !filter_app, !length_app, !count_new_widgets.
  assert (Hone : ∀ l : list string, NoDup l → name ∈ l →
    length (filter (fun module => module = name)
      (filter (fun module =>
         list_contains (global_startup (tree (_manager self))) module
         = false) l)) = 1).
  { intros l Hnd Hin. apply count_NoDup.
    - by apply NoDup_filter.
    - by apply list_elem_of_filter. }
  rewrite !elem_of_cons, elem_of_nil in Hbase.
  destruct Hbase as [[= -> ->]|[[= -> ->]|[[= -> ->]|[]]]];
    repeat (destruct (decide _) as [?|?]; try done);
    by rewrite Hone.
Qed.

End ModuleList.

(** C2 fails on the code: [updateGUIModuleList] does not clear (the call
    to [clearModuleList] is commented out), so on the tree that defines
    the gui modules [a] and [b] with [a] auto-started, the first run
    leaves one widget for ('gui', 'b') and none for ('gui', 'a'), and a
    second run on the same tree leaves two widgets for ('gui', 'b'). *)
Theorem updateGUIModuleList_rerun_duplicates :
  count_items "gui" "b"
    (updateGUIModuleList "Module status" Samples.sample_gui).2 = 1
  ∧ count_items "gui" "a"
      (updateGUIModuleList "Module status" Samples.sample_gui).2 = 0
  ∧ (updateGUIModuleList "Module status"
       (updateGUIModuleList "Module status" Samples.sample_gui).2).1
    = Return tt
  ∧ count_items "gui" "b"
      (updateGUIModuleList "Module status"
         (updateGUIModuleList "Module status" Samples.sample_gui).2).2 = 2.
Proof. repeat split; vm_compute; reflexivity. Qed.

End ModuleListFacts.

(** * Properties of the console namespace *)

Module ConsoleFacts.
Import Py Manager ManagerGui.

Lemma elem_of_keys_get {V} (d : dict V) (key : string) :
  key ∈ keys d ↔ is_Some (get d key).
Proof.
  unfold keys. induction d as [|[k v] d IH]; cbn.
  - split; [by intros ?%elem_of_nil|by intros [? ?]].
  - rewrite elem_of_cons, IH.
    destruct (String.eqb_spec k key) as [->|Hne].
    + split; [by eexists|by left].
    + split; [intros [?|?]; [congruence|done]|by right].
Qed.

Lemma getitem_Some {V} (d : dict V) (key : string) (v : V) :
  get d key = Some v → getitem d key = Return v.
Proof. intros H. unfold getitem. by rewrite H. Qed.

Lemma bind_Return {A B} (a : A) (f : A → result B) :
  Return a ≫= f = f a.
Proof. reflexivity. Qed.

(** The inner loop of [updateIPythonModuleList] over the names [names] of
    one category [d]. *)
Lemma inner_loop (d : dict Module) (names : list string)
  (acc : gset string * gmap string pyobj) :
  (∀ module, module ∈ names → is_Some (get d module)) →
  ∃ acc' : gset string * gmap string pyobj,
    for_in names
      (fun module (acc : gset string * gmap string pyobj) =>
         m ← getitem d module;
         mret ({[module]} ∪ acc.1, <[module := ObjModule m]> acc.2))
      acc
    = Return acc'
    ∧ (∀ k, k ∈ acc'.1 ↔ k ∈ names ∨ k ∈ acc.1)
    ∧ (∀ k, acc'.2 !! k
            = if decide (k ∈ names) then ObjModule <$> get d k
              else acc.2 !! k).
Proof.
  revert acc. induction names as [|module names IH]; intros acc Hin.
  - exists acc. split; [done|]. split.
    + intros k. rewrite elem_of_nil. naive_solver.
    + intros k. rewrite decide_False; [done|apply not_elem_of_nil].
  - destruct (Hin module) as [m Hm]; [by left|].
    destruct (IH ({[module]} ∪ acc.1, <[module := ObjModule m]> acc.2))
      as (acc' & E & Hset & Hns).
    { intros k Hk. apply Hin. by right. }
    exists acc'. split; [|split].
    + cbn [for_in]. unfold getitem. rewrite Hm. exact E.
    + intros k. rewrite Hset. cbn [fst]. rewrite elem_of_cons. set_solver.
    + intros k. rewrite Hns. cbn [snd].
      destruct (decide (k ∈ names)) as [Hk|Hk].
      * rewrite decide_True; [done|by right].
      * destruct (decide (k = module)) as [->|Hne].
        -- rewrite lookup_insert_eq, decide_True; [|by left].
           by rewrite Hm.
        -- rewrite lookup_insert_ne by done.
           rewrite decide_False; [done|].
           intros [?|?]%elem_of_cons; done.
Qed.

(** The loop that pops the discarded names. *)
Lemma pop_loop (names : list string) (self : t) :
  ∃ self' : t,
    for_each names (fun module => modify (set_namespace (delete module))) self
    = (Return tt, self')
    ∧ (∀ k, namespace self' !! k
            = if decide (k ∈ names) then None else namespace self !! k)
    ∧ modules self' = modules self
    ∧ _manager self' = _manager self.
Proof.
  revert self. induction names as [|module names IH]; intros self.
  - exists self. split; [done|]. split; [|done].
    intros k. rewrite decide_False; [done|apply not_elem_of_nil].
  - destruct (IH (set_namespace (delete module) self))
      as (self' & E & Hns & Hmod & Hmgr).
    exists self'. split; [exact E|]. split; [|done].
    intros k. rewrite Hns. cbn.
    destruct (decide (k ∈ names)) as [Hk|Hk].
    + rewrite decide_True; [done|by right].
    + destruct (decide (k = module)) as [->|Hne].
      * rewrite lookup_delete_eq, decide_True; [done|by left].
      * rewrite lookup_delete_ne by done.
        rewrite decide_False; [done|].
        intros [?|?]%elem_of_cons; done.
Qed.

(** Turns [H : k ∈ keys d] or [H : k ∉ keys d] into the value of
    [get d k]. *)
Ltac key_lookup H :=
  rewrite elem_of_keys_get in H;
  first [rewrite <- eq_None_not_Some in H | destruct H as [? H]].

(** What [updateIPythonModuleList] leaves behind when the loaded-module
    tree has the three categories. *)
Lemma updateIPythonModuleList_result (hardware logic gui : dict Module)
  (self : t) :
  get (loaded (tree (_manager self))) "hardware" = Some hardware →
  get (loaded (tree (_manager self))) "logic" = Some logic →
  get (loaded (tree (_manager self))) "gui" = Some gui →
  ∃ self' : t,
    updateIPythonModuleList self = (Return tt, self')
    ∧ (∀ k, k ∈ modules self'
            ↔ is_Some (loaded_module (tree (_manager self)) k))
    ∧ (∀ k, namespace self' !! k
            = match loaded_module (tree (_manager self)) k with
              | Some m => Some (ObjModule m)
              | None => if decide (k ∈ modules self) then None
                        else namespace self !! k
              end)
    ∧ _manager self' = _manager self.
Proof.
  intros Hh Hl Hg.
  destruct (inner_loop hardware (keys hardware) (∅, ∅))
    as (a1 & E1 & S1 & N1); [by intros k ?%elem_of_keys_get|].
  destruct (inner_loop logic (keys logic) a1)
    as (a2 & E2 & S2 & N2); [by intros k ?%elem_of_keys_get|].
  destruct (inner_loop gui (keys gui) a2)
    as (a3 & E3 & S3 & N3); [by intros k ?%elem_of_keys_get|].
  destruct (pop_loop (elements (modules self ∖ a3.1))
              (set_namespace (fun ns => a3.2 ∪ ns) self))
    as (s4 & E4 & N4 & M4 & G4).
  assert (Hfind : ∀ k, loaded_module (tree (_manager self)) k
    = match get gui k, get logic k with
      | Some m, _ => Some m
      | None, Some m => Some m
      | None, None => get hardware k
      end).
  { intros k. unfold loaded_module. by rewrite Hh, Hl, Hg. }
  assert (Hcur : ∀ k, k ∈ a3.1
                      ↔ is_Some (loaded_module (tree (_manager self)) k)).
  { intros k. rewrite S3, S2, S1, !elem_of_keys_get, Hfind.
    destruct (get gui k), (get logic k), (get hardware k);
      rewrite ?is_Some_alt; set_solver. }
  exists (set_modules (fun _ => a3.1) s4). split; [|split; [|split]].
  - unfold updateIPythonModuleList.
    unfold mbind at 1, M_bind at 1, get_self at 1.
    cbn [for_in].
    rewrite (getitem_Some _ _ _ Hh), (getitem_Some _ _ _ Hl),
      (getitem_Some _ _ _ Hg).
    rewrite bind_Return, E1, bind_Return, bind_Return, E2, bind_Return,
      bind_Return, E3, !bind_Return.
    unfold mbind, M_bind, lift, modify in E4 |- *. cbn [fst snd].
    by rewrite E4.
  - intros k. cbn. apply Hcur.
  - intros k. cbn. rewrite N4. cbn.
    rewrite lookup_union, N3, N2, N1, Hfind. cbn [snd].
    rewrite lookup_empty.
    destruct (decide (k ∈ elements (modules self ∖ a3.1))) as [Hd|Hd];
      rewrite elem_of_elements, elem_of_difference, Hcur, Hfind in Hd;
      destruct (decide (k ∈ keys gui)) as [Kg|Kg];
      destruct (decide (k ∈ keys logic)) as [Kl|Kl];
      destruct (decide (k ∈ keys hardware)) as [Kh|Kh];
      key_lookup Kg; key_lookup Kl; key_lookup Kh;
      rewrite ?Kg, ?Kl, ?Kh in Hd |- *; cbn; try done;
      try (by destruct Hd as [_ []]; eexists);
      try (by destruct (namespace self !! k)).
    + by rewrite decide_True by apply Hd.
    + destruct (decide (k ∈ modules self)) as [Km|Km].
      * destruct Hd. split; [done|]. by intros [? ?].
      * by destruct (namespace self !! k).
  - cbn. exact G4.
Qed.

(** C10: when the loaded-module tree has the categories hardware, logic
    and gui, [updateIPythonModuleList] returns and leaves [modules] equal
    to the set of names loaded in these categories; every loaded name is
    bound to its module, every name tracked before and no longer loaded
    is unbound, and every other name keeps the binding it had. *)
Theorem updateIPythonModuleList_syncs_namespace
  (hardware logic gui : dict Module) (self : t) :
  get (loaded (tree (_manager self))) "hardware" = Some hardware →
  get (loaded (tree (_manager self))) "logic" = Some logic →
  get (loaded (tree (_manager self))) "gui" = Some gui →
  ∃ self' : t,
    updateIPythonModuleList self = (Return tt, self')
    ∧ (∀ k, k ∈ modules self'
            ↔ k ∈ keys hardware ∨ k ∈ keys logic ∨ k ∈ keys gui)
    ∧ (∀ k, k ∈ modules self' →
            ∃ m, loaded_module (tree (_manager self)) k = Some m
                 ∧ namespace self' !! k = Some (ObjModule m))
    ∧ (∀ k, k ∈ modules self → k ∉ modules self' →
            namespace self' !! k = None)
    ∧ (∀ k, k ∉ modules self → k ∉ modules self' →
            namespace self' !! k = namespace self !! k).
Proof.
  intros Hh Hl Hg.
  destruct (updateIPythonModuleList_result hardware logic gui self Hh Hl Hg)
    as (self' & E & Hmod & Hns & _).
  exists self'. split; [exact E|]. split; [|split; [|split]].
  - intros k. rewrite Hmod, !elem_of_keys_get.
    unfold loaded_module. rewrite Hh, Hl, Hg. cbn.
    destruct (get gui k), (get logic k), (get hardware k);
      rewrite ?is_Some_alt; naive_solver.
  - intros k [m Hm]%Hmod. exists m. split; [done|]. by rewrite Hns, Hm.
  - intros k Hk Hnot. rewrite Hns.
    destruct (loaded_module (tree (_manager self)) k) eqn:Hm.
    + destruct Hnot. apply Hmod. by eexists.
    + by rewrite decide_True.
  - intros k Hk Hnot. rewrite Hns.
    destruct (loaded_module (tree (_manager self)) k) eqn:Hm.
    + destruct Hnot. apply Hmod. by eexists.
    + by rewrite decide_False.
Qed.

Lemma updateIPythonModuleList_syncs_namespace_witness :
  get (loaded (tree (_manager Samples.sample_console))) "hardware" = Some []
  ∧ get (loaded (tree (_manager Samples.sample_console))) "logic"
    = Some [("counter", Samples.idle_module)]
  ∧ get (loaded (tree (_manager Samples.sample_console))) "gui"
    = Some [("a", Samples.idle_module)]
  ∧ ∃ self' : t,
      updateIPythonModuleList Samples.sample_console = (Return tt, self')
      ∧ (∀ k, k ∈ modules self'
              ↔ k ∈ keys ([] : dict Module)
                ∨ k ∈ keys [("counter", Samples.idle_module)]
                ∨ k ∈ keys [("a", Samples.idle_module)])
      ∧ (∀ k, k ∈ modules self' →
              ∃ m, loaded_module (tree (_manager Samples.sample_console)) k
                   = Some m
                   ∧ namespace self' !! k = Some (ObjModule m))
      ∧ (∀ k, k ∈ modules Samples.sample_console → k ∉ modules self' →
              namespace self' !! k = None)
      ∧ (∀ k, k ∉ modules Samples.sample_console → k ∉ modules self' →
              namespace self' !! k = namespace Samples.sample_console !! k).
Proof.
  split; [reflexivity|]. split; [reflexivity|]. split; [reflexivity|].
  exact (updateIPythonModuleList_syncs_namespace []
           [("counter", Samples.idle_module)] [("a", Samples.idle_module)]
           Samples.sample_console eq_refl eq_refl eq_refl).
Defined.

Example updateIPythonModuleList_sample :
  let self' := (updateIPythonModuleList Samples.sample_console).2 in
  namespace self' !! "counter" = Some (ObjModule Samples.idle_module)
  ∧ namespace self' !! "a" = Some (ObjModule Samples.idle_module)
  ∧ namespace self' !! "old" = None
  ∧ namespace self' !! "np" = Some (ObjOther "numpy")
  ∧ modules self' = {[ "counter"; "a" ]}.
Proof. vm_compute. repeat split; reflexivity. Qed.

End ConsoleFacts.

(** * The shape of the projected tree *)

Module ProjectorShape.
Import ConfigTree ConfigTreeFacts.

(** Induction on the values the projector recurses into. *)
Lemma pyvalue_recursed_ind (P : pyvalue → Prop) :
  (∀ kvs, Forall (fun kv => P kv.2) kvs → P (VDict kvs)) →
  (∀ kvs, Forall (fun kv => P kv.2) kvs → P (VOrderedDict kvs)) →
  (∀ vs, Forall P vs → P (VList vs)) →
  (∀ v, type_is_dict_odict_or_list v = false → P v) →
  ∀ v, P v.
Proof.
  intros Hd Ho Hl Hs. fix IH 1. intros [kvs|kvs|vs|vs|vs|cls kvs|cls vs|cls r].
  - apply Hd. induction kvs as [|[k v] kvs IHk]; constructor; [apply IH|done].
  - apply Ho. induction kvs as [|[k v] kvs IHk]; constructor; [apply IH|done].
  - apply Hl. induction vs as [|v vs IHv]; constructor; [apply IH|done].
  - by apply Hs.
  - by apply Hs.
  - by apply Hs.
  - by apply Hs.
  - by apply Hs.
Qed.

Section Projector.

Variable str : pyvalue → string.

Lemma projection_dict (kvs : list (string * pyvalue)) :
  projection str (VDict kvs)
  = map (fun kv => Item kv.1 true (projection str kv.2)) kvs
  ∧ projection str (VOrderedDict kvs)
    = map (fun kv => Item kv.1 true (projection str kv.2)) kvs.
Proof.
  unfold projection at 1 3. simpl.
  rewrite (fold_left_addChild
             (fun kv => fillTreeItem str kv.2 (setText kv.1 newItem))).
  simpl. split; apply map_ext; intros [k v]; apply fillTreeItem_appends.
Qed.

Lemma element_item_shape (val : pyvalue) :
  element_item str val
  = Item (list_label str val) true
      (if type_is_dict_odict_or_list val then projection str val else []).
Proof.
  unfold element_item, list_label.
  destruct val; try reflexivity; rewrite fillTreeItem_appends; reflexivity.
Qed.

Lemma projection_list (vs : list pyvalue) :
  projection str (VList vs)
  = map (fun val =>
           Item (list_label str val) true
             (if type_is_dict_odict_or_list val then projection str val
              else [])) vs.
Proof.
  unfold projection at 1. rewrite fillTreeItem_list. simpl.
  apply map_ext, element_item_shape.
Qed.

(** X1: the displayed tree, level by level.  A dict or OrderedDict gives
    one expanded item per key, in the order of the keys, labelled with the
    key and holding the projection of the value; a list gives one expanded
    item per element, in order, labelled '[dict]', '[odict]' or '[list]'
    and holding the projection of the element when the element is of one
    of these three types, and labelled with the element's string form and
    empty otherwise; any other value gives a single item that is not
    expanded, labelled with its string form. *)
Theorem projection_level_by_level (kvs : list (string * pyvalue))
  (vs : list pyvalue) (value : pyvalue) :
  projection str (VDict kvs)
  = map (fun kv => Item kv.1 true (projection str kv.2)) kvs
  ∧ projection str (VOrderedDict kvs)
    = map (fun kv => Item kv.1 true (projection str kv.2)) kvs
  ∧ projection str (VList vs)
    = map (fun val =>
             Item (list_label str val) true
               (if type_is_dict_odict_or_list val then projection str val
                else [])) vs
  ∧ (if type_is_dict_odict_or_list value then True
     else projection str value = [Item (str value) false []]).
Proof.
  split; [apply projection_dict|]. split; [apply projection_dict|].
  split; [apply projection_list|].
  by destruct value.
Qed.

(** X2: a value is displayed as no item at all exactly when it is an empty
    dict, an empty OrderedDict or an empty list; every other value,
    including an empty tuple or the empty string, shows at least one
    item. *)
Theorem projection_empty_iff (value : pyvalue) :
  projection str value = []
  ↔ value = VDict [] ∨ value = VOrderedDict [] ∨ value = VList [].
Proof.
  split.
  - intros H.
    destruct value as [kvs|kvs|vs|vs|vs|cls kvs|cls vs|cls r];
      try discriminate H.
    + rewrite (proj1 (projection_dict kvs)) in H.
      destruct kvs; [by left|discriminate H].
    + rewrite (proj2 (projection_dict kvs)) in H.
      destruct kvs; [by right; left|discriminate H].
    + rewrite projection_list in H.
      destruct vs; [by right; right|discriminate H].
  - by intros [->|[->| ->]].
Qed.

(** X3: [fillTreeItem] keeps the text of the item and the children it
    already has, in place, and adds the projection behind them: filling
    the same item twice without clearing it in between shows the value
    twice. *)
Theorem fillTreeItem_twice_duplicates (value : pyvalue)
  (item : QTreeWidgetItem) :
  text0 (fillTreeItem str value item) = text0 item
  ∧ take (length (children item)) (children (fillTreeItem str value item))
    = children item
  ∧ fillTreeItem str value (fillTreeItem str value item)
    = Item (text0 item) true
        (children item ++ projection str value ++ projection str value).
Proof.
  rewrite !fillTreeItem_appends. simpl.
  split; [done|]. split; [by rewrite take_app_length|].
  by rewrite <- app_assoc.
Qed.

Lemma projection_expanded (value : pyvalue) :
  forallb all_parents_expanded (projection str value) = true.
Proof.
  induction value as [kvs IH|kvs IH|vs IH|v Hv] using pyvalue_recursed_ind.
  - rewrite (proj1 (projection_dict kvs)).
    induction IH as [|[k v] kvs Hv _ IHk]; [done|].
    cbn [map forallb all_parents_expanded fst snd].
    cbn [snd] in Hv. rewrite Hv, IHk. by destruct (projection str v).
  - rewrite (proj2 (projection_dict kvs)).
    induction IH as [|[k v] kvs Hv _ IHk]; [done|].
    cbn [map forallb all_parents_expanded fst snd].
    cbn [snd] in Hv. rewrite Hv, IHk. by destruct (projection str v).
  - rewrite projection_list.
    induction IH as [|v vs Hv _ IHv]; [done|].
    cbn [map forallb all_parents_expanded]. rewrite IHv.
    destruct (type_is_dict_odict_or_list v); [|done].
    rewrite Hv. by destruct (projection str v).
  - by destruct v.
Qed.

(** X4: after [fillTreeWidget], every item of the tree that has children
    is expanded, at every depth, the root included, whatever the widget
    held before. *)
Theorem fillTreeWidget_all_expanded (w : QTreeWidget) (T : pyvalue) :
  all_parents_expanded (invisibleRootItem (fillTreeWidget str w T)) = true.
Proof.
  unfold fillTreeWidget, clear. cbn [invisibleRootItem].
  rewrite fillTreeItem_appends. cbn [all_parents_expanded children app].
  rewrite projection_expanded. by destruct (projection str T).
Qed.

End Projector.

End ProjectorShape.

(** * Polling one module widget *)

Module PollFacts.
Import Py Manager ModuleListItem ModuleListItemFacts.

(** One tick: it returns, keeps the identity of the widget, and calls
    [getState()] at most once, on the widget's own module. *)
Lemma checkModuleState_step (self : t) (mgr : manager) :
  ∃ (self1 : t) (n : nat),
    checkModuleState self mgr
    = (Return self1,
       {| tree := tree mgr; _getConfigFile := _getConfigFile mgr;
          getState_calls :=
            getState_calls mgr ++ replicate n (base self, name self) |})
    ∧ (n ≤ 1)%nat
    ∧ base self1 = base self ∧ name self1 = name self
    ∧ loadButton self1 = loadButton self.
Proof.
  destruct (decide (statusLabel self = error_sentinel)) as [Hl|Hl].
  - exists self, 0. rewrite checkModuleState_latched by done.
    cbn. rewrite app_nil_r. destruct mgr. repeat split. lia.
  - rewrite checkModuleState_polled by done.
    destruct (get (loaded (tree mgr)) (base self)
              ≫= (fun d => get d (name self))) as [m|].
    + eexists _, 1. split; [reflexivity|]. cbn. repeat split. lia.
    + eexists _, 0. cbn. rewrite app_nil_r. destruct mgr.
      repeat split. lia.
Qed.

(** X5: polling never raises and never touches anything but the status
    label: after any number of ticks, with the manager's tree changing in
    between, the widget has the category, name and button text it had, the
    manager's configuration file is the same, and the [getState()] calls
    made are calls on the widget's own module, at most one per tick. *)
Theorem poll_queries_own_module_only (trees : list ManagerTree) (self : t)
  (mgr : manager) :
  base (poll trees self mgr).1 = base self
  ∧ name (poll trees self mgr).1 = name self
  ∧ loadButton (poll trees self mgr).1 = loadButton self
  ∧ _getConfigFile (poll trees self mgr).2 = _getConfigFile mgr
  ∧ tree (poll trees self mgr).2 = default (tree mgr) (last trees)
  ∧ ∃ n : nat,
      (n ≤ length trees)%nat
      ∧ getState_calls (poll trees self mgr).2
        = getState_calls mgr ++ replicate n (base self, name self).
Proof.
  revert self mgr. induction trees as [|tr trees IH]; intros self mgr.
  - cbn. repeat split. exists 0. cbn. by rewrite app_nil_r.
  - cbn [poll].
    destruct (checkModuleState_step self
                {| tree := tr; _getConfigFile := _getConfigFile mgr;
                   getState_calls := getState_calls mgr |})
      as (self1 & n & -> & Hn & Hb & Hnm & Hlb).
    cbn [tree _getConfigFile getState_calls] in *.
    destruct (IH self1
                {| tree := tr; _getConfigFile := _getConfigFile mgr;
                   getState_calls :=
                     getState_calls mgr
                     ++ replicate n (base self, name self) |})
      as (Ib & Inm & Ilb & Icf & Itr & k & Hk & Hcalls).
    cbn [tree _getConfigFile getState_calls] in *.
    split; [congruence|]. split; [congruence|]. split; [congruence|].
    split; [done|]. split.
    + rewrite Itr. destruct trees as [|tr' trees]; [done|].
      rewrite (last_cons_cons tr). destruct (last (tr' :: trees)) eqn:E; [done|].
      by apply last_None in E.
    + exists (n + k). split; [cbn; lia|].
      rewrite Hcalls, Hb, Hnm, <- app_assoc, replicate_add. done.
Qed.

(** X6: 'not loaded' is not sticky.  A widget that is not latched and
    whose module is absent at one tick and loaded, with [getState()]
    returning [state], at the next, shows 'not loaded' and then [state];
    the module is queried once, at the second tick. *)
Theorem not_loaded_then_loaded (tr1 tr2 : ManagerTree) (self : t)
  (mgr : manager) (m : Module) (state : string) :
  statusLabel self ≠ error_sentinel →
  get (loaded tr1) (base self) ≫= (fun d => get d (name self)) = None →
  get (loaded tr2) (base self) ≫= (fun d => get d (name self)) = Some m →
  getState m = Return state →
  (poll [tr1] self mgr).1 = statusLabel_setText "not loaded" self
  ∧ (poll [tr1; tr2] self mgr).1 = statusLabel_setText state self
  ∧ getState_calls (poll [tr1; tr2] self mgr).2
    = getState_calls mgr ++ [(base self, name self)].
Proof.
  intros Hl H1 H2 Hs. cbn [poll].
  rewrite checkModuleState_polled by done.
  cbn [tree]. rewrite H1.
  split; [done|].
  rewrite checkModuleState_polled by (cbn; discriminate).
  cbn [tree base name statusLabel_setText]. rewrite H2, Hs. done.
Qed.

(** X7: the latch looks at the label text only.  When [getState()] of a
    loaded module returns the very text of the error sentinel, the widget
    shows it and is latched as after an exception: whatever the manager's
    tree becomes, later ticks leave the widget as it is and call no
    [getState()]. *)
Theorem returned_sentinel_latches (trees : list ManagerTree) (self : t)
  (mgr : manager) (m : Module) :
  statusLabel self ≠ error_sentinel →
  get (loaded (tree mgr)) (base self) ≫= (fun d => get d (name self))
  = Some m →
  getState m = Return error_sentinel →
  ∃ (self1 : t) (mgr1 : manager),
    checkModuleState self mgr = (Return self1, mgr1)
    ∧ statusLabel self1 = error_sentinel
    ∧ (poll trees self1 mgr1).1 = self1
    ∧ getState_calls (poll trees self1 mgr1).2
      = getState_calls mgr ++ [(base self, name self)].
Proof.
  intros Hl Hm Hs. rewrite checkModuleState_polled by done.
  rewrite Hm, Hs. eexists _, _. split; [reflexivity|].
  split; [reflexivity|].
  match goal with
  | |- (poll _ ?s ?g).1 = _ ∧ _ =>
      destruct (poll_latched trees s g eq_refl) as [-> ->]
  end.
  done.
Qed.

Lemma not_loaded_then_loaded_witness :
  statusLabel Samples.fresh_widget ≠ error_sentinel
  ∧ get (loaded Samples.sample_tree) (base Samples.fresh_widget)
    ≫= (fun d => get d (name Samples.fresh_widget)) = None
  ∧ get (loaded Samples.sample_tree_loaded) (base Samples.fresh_widget)
    ≫= (fun d => get d (name Samples.fresh_widget))
    = Some Samples.idle_module
  ∧ getState Samples.idle_module = Return "idle"
  ∧ (poll [Samples.sample_tree] Samples.fresh_widget
       (Samples.sample_manager Samples.sample_tree_broken)).1
    = statusLabel_setText "not loaded" Samples.fresh_widget
  ∧ (poll [Samples.sample_tree; Samples.sample_tree_loaded]
       Samples.fresh_widget
       (Samples.sample_manager Samples.sample_tree_broken)).1
    = statusLabel_setText "idle" Samples.fresh_widget
  ∧ getState_calls
      (poll [Samples.sample_tree; Samples.sample_tree_loaded]
         Samples.fresh_widget
         (Samples.sample_manager Samples.sample_tree_broken)).2
    = [] ++ [("logic", "counter")].
Proof.
  split; [discriminate|]. split; [reflexivity|]. split; [reflexivity|].
  split; [reflexivity|].
  refine (not_loaded_then_loaded Samples.sample_tree
            Samples.sample_tree_loaded Samples.fresh_widget
            (Samples.sample_manager Samples.sample_tree_broken)
            Samples.idle_module "idle" _ eq_refl eq_refl eq_refl).
  discriminate.
Defined.

Lemma returned_sentinel_latches_witness :
  statusLabel Samples.fresh_widget ≠ error_sentinel
  ∧ get (loaded (tree (Samples.sample_manager Samples.sample_tree_sentinel)))
      (base Samples.fresh_widget)
    ≫= (fun d => get d (name Samples.fresh_widget))
    = Some Samples.sentinel_module
  ∧ getState Samples.sentinel_module = Return error_sentinel
  ∧ ∃ (self1 : t) (mgr1 : manager),
      checkModuleState Samples.fresh_widget
        (Samples.sample_manager Samples.sample_tree_sentinel)
      = (Return self1, mgr1)
      ∧ statusLabel self1 = error_sentinel
      ∧ (poll [Samples.sample_tree_loaded; Samples.sample_tree] self1 mgr1).1
        = self1
      ∧ getState_calls
          (poll [Samples.sample_tree_loaded; Samples.sample_tree]
             self1 mgr1).2
        = [] ++ [("logic", "counter")].
Proof.
  split; [discriminate|]. split; [reflexivity|]. split; [reflexivity|].
  refine (returned_sentinel_latches
            [Samples.sample_tree_loaded; Samples.sample_tree]
            Samples.fresh_widget
            (Samples.sample_manager Samples.sample_tree_sentinel)
            Samples.sentinel_module _ eq_refl eq_refl).
  discriminate.
Defined.

End PollFacts.

(** * Building the module list: wiring, exclusions and missing categories *)

Module ModuleListMore.
Import Py Manager ManagerGui ModuleListFacts.

Section ModuleList.

Variable ui_statusLabel : string.

(** The loop of [fillModuleList], with everything it writes: widget [i] of
    [modlist] goes into the layout given, gets its four signals connected
    and its [checkModuleState] connected to the timer. *)
Lemma fillModuleList_loop_wiring (lay : layout) (base : string)
  (names : list string) (self : t) :
  ∃ self' : t,
    for_each names
      (fun module =>
         self ← get_self;
         if negb (list_contains (global_startup (tree (_manager self)))
                    module)
         then
           let widget :=
             ModuleListItem.__init__ ui_statusLabel base module in
           let i := length (modlist self) in
           _ ← modify (set_modlist (fun l => l ++ [widget]));
           _ ← modify (set__mw (addWidget lay i));
           _ ← modify (set_connections (fun c => c ++
                  [(i, "sigLoadThis", "sigStartModule");
                   (i, "sigReloadThis", "sigReloadModule");
                   (i, "sigDeactivateThis", "sigStopModule");
                   (i, "sigCleanupStatus", "sigCleanupStatus")]));
           modify (set_checkTimer_timeout (fun c => c ++ [i]))
         else mret tt) self
    = (Return tt, self')
    ∧ _manager self' = _manager self
    ∧ modlist self'
      = modlist self
        ++ new_widgets ui_statusLabel (tree (_manager self)) base names
    ∧ checkTimer_timeout self'
      = checkTimer_timeout self
        ++ seq (length (modlist self))
             (length (new_widgets ui_statusLabel (tree (_manager self))
                        base names))
    ∧ (∀ l, layout_widgets (_mw self') l
            = layout_widgets (_mw self) l
              ++ match lay, l with
                 | guilayout, guilayout | logiclayout, logiclayout
                 | hwlayout, hwlayout =>
                     seq (length (modlist self))
                       (length (new_widgets ui_statusLabel
                                  (tree (_manager self)) base names))
                 | _, _ => []
                 end)
    ∧ connections self'
      = connections self
        ++ (seq (length (modlist self))
              (length (new_widgets ui_statusLabel (tree (_manager self))
                         base names))
            ≫= fun i => [(i, "sigLoadThis", "sigStartModule");
                         (i, "sigReloadThis", "sigReloadModule");
                         (i, "sigDeactivateThis", "sigStopModule");
                         (i, "sigCleanupStatus", "sigCleanupStatus")])
    ∧ logwidget (_mw self') = logwidget (_mw self)
    ∧ modules self' = modules self
    ∧ namespace self' = namespace self
    ∧ emitted self' = emitted self.
Proof.
  match goal with
  | |- context [for_each _ ?b _] => set (body := b)
  end.
  assert (Hstep : ∀ (module : string) (s : t),
    body module s
    = (Return tt,
       if list_contains (global_startup (tree (_manager s))) module then s
       else
         set_checkTimer_timeout (fun c => c ++ [length (modlist s)])
           (set_connections (fun c => c ++
              [(length (modlist s), "sigLoadThis", "sigStartModule");
               (length (modlist s), "sigReloadThis", "sigReloadModule");
               (length (modlist s), "sigDeactivateThis", "sigStopModule");
               (length (modlist s), "sigCleanupStatus", "sigCleanupStatus")])
              (set__mw (addWidget lay (length (modlist s)))
                 (set_modlist
                    (fun l => l ++ [ModuleListItem.__init__ ui_statusLabel
                                      base module]) s))))).
  { intros module s. unfold body, mbind, M_bind, get_self, modify.
    by destruct (list_contains (global_startup (tree (_manager s))) module). }
  clearbody body.
  revert self. induction names as [|module names IH]; intros self.
  - exists self. cbn. rewrite !app_nil_r. repeat split.
    intros l. by destruct lay, l; rewrite app_nil_r.
  - cbn [for_each]. unfold mbind at 1, M_bind at 1. rewrite Hstep.
    unfold new_widgets. rewrite filter_cons.
    destruct (list_contains (global_startup (tree (_manager self))) module)
      eqn:Hin.
    + rewrite decide_False by done.
      destruct (IH self) as (self' & E & ?). exists self'. by split.
    + rewrite decide_True by done.
      match goal with
      | |- ∃ _, for_each _ _ ?s = _ ∧ _ =>
          destruct (IH s)
            as (self' & E & Hg & Hml & Htm & Hlay & Hcon & Hlog & Hmod
                & Hns & Hem)
      end.
      exists self'. split; [exact E|].
      cbn in Hg, Hml, Htm, Hlay, Hcon, Hlog, Hmod, Hns, Hem.
      rewrite length_app in Htm, Hlay, Hcon. cbn [length] in Htm, Hlay, Hcon.
      rewrite Nat.add_1_r in Htm, Hlay, Hcon.
      unfold new_widgets in Hml, Htm, Hlay, Hcon.
      split; [done|]. cbn [map length seq].
      split; [by rewrite Hml, <- app_assoc|].
      split; [by rewrite Htm, <- app_assoc|].
      split; [|split; [by rewrite Hcon, <- app_assoc|done]].
      intros l. rewrite Hlay.
      destruct lay, l; cbn; by rewrite <- ?app_assoc, ?app_nil_r.
Qed.

Lemma fillModuleList_wiring (lay : layout) (base : string)
  (d : dict ConfigTree.pyvalue) (self : t) :
  get (defined (tree (_manager self))) base = Some d →
  ∃ self' : t,
    fillModuleList ui_statusLabel lay base self = (Return tt, self')
    ∧ _manager self' = _manager self
    ∧ modlist self'
      = modlist self
        ++ new_widgets ui_statusLabel (tree (_manager self)) base (keys d)
    ∧ checkTimer_timeout self'
      = checkTimer_timeout self
        ++ seq (length (modlist self))
             (length (new_widgets ui_statusLabel (tree (_manager self))
                        base (keys d)))
    ∧ (∀ l, layout_widgets (_mw self') l
            = layout_widgets (_mw self) l
              ++ match lay, l with
                 | guilayout, guilayout | logiclayout, logiclayout
                 | hwlayout, hwlayout =>
                     seq (length (modlist self))
                       (length (new_widgets ui_statusLabel
                                  (tree (_manager self)) base (keys d)))
                 | _, _ => []
                 end)
    ∧ logwidget (_mw self') = logwidget (_mw self)
    ∧ modules self' = modules self
    ∧ namespace self' = namespace self
    ∧ emitted self' = emitted self.
Proof.
  intros Hd. unfold fillModuleList.
  unfold mbind at 1, M_bind at 1, get_self at 1.
  unfold mbind at 1, M_bind at 1, lift, getitem. rewrite Hd.
  destruct (fillModuleList_loop_wiring lay base (keys d) self)
    as (self' & E & Hg & Hml & Htm & Hlay & _ & Hrest).
  exists self'. by repeat (split; [done|]).
Qed.

(** X8: what one run of [updateGUIModuleList] wires.  With [g], [l] and
    [h] widgets created for gui, logic and hardware, the widgets get the
    next [g + l + h] positions of [modlist]; each of these positions is
    connected to the timer exactly once, in order; the gui layout receives
    the first [g] of them, the logic layout the next [l] and the hardware
    layout the last [h], and nothing else is added to a layout.  The log
    widget, the console namespace, the tracked modules and the emitted
    signals are untouched. *)
Theorem updateGUIModuleList_wiring
  (gui logic hardware : dict ConfigTree.pyvalue) (self : t) :
  get (defined (tree (_manager self))) "gui" = Some gui →
  get (defined (tree (_manager self))) "logic" = Some logic →
  get (defined (tree (_manager self))) "hardware" = Some hardware →
  ∃ (self' : t) (g l h : nat),
    updateGUIModuleList ui_statusLabel self = (Return tt, self')
    ∧ g = length (new_widgets ui_statusLabel (tree (_manager self)) "gui"
                    (keys gui))
    ∧ l = length (new_widgets ui_statusLabel (tree (_manager self)) "logic"
                    (keys logic))
    ∧ h = length (new_widgets ui_statusLabel (tree (_manager self))
                    "hardware" (keys hardware))
    ∧ length (modlist self') = length (modlist self) + (g + l + h)
    ∧ checkTimer_timeout self'
      = checkTimer_timeout self ++ seq (length (modlist self)) (g + l + h)
    ∧ layout_widgets (_mw self') guilayout
      = layout_widgets (_mw self) guilayout ++ seq (length (modlist self)) g
    ∧ layout_widgets (_mw self') logiclayout
      = layout_widgets (_mw self) logiclayout
        ++ seq (length (modlist self) + g) l
    ∧ layout_widgets (_mw self') hwlayout
      = layout_widgets (_mw self) hwlayout
        ++ seq (length (modlist self) + g + l) h
    ∧ logwidget (_mw self') = logwidget (_mw self)
    ∧ modules self' = modules self
    ∧ namespace self' = namespace self
    ∧ emitted self' = emitted self.
Proof.
  intros Hg Hl Hh. unfold updateGUIModuleList.
  destruct (fillModuleList_wiring guilayout "gui" gui self Hg)
    as (s1 & E1 & G1 & M1 & T1 & L1 & W1 & O1 & N1 & X1).
  unfold mbind at 1, M_bind at 1. rewrite E1.
  rewrite <- G1 in Hl, Hh.
  destruct (fillModuleList_wiring logiclayout "logic" logic s1 Hl)
    as (s2 & E2 & G2 & M2 & T2 & L2 & W2 & O2 & N2 & X2).
  unfold mbind at 1, M_bind at 1. rewrite E2.
  rewrite <- G2 in Hh.
  destruct (fillModuleList_wiring hwlayout "hardware" hardware s2 Hh)
    as (s3 & E3 & G3 & M3 & T3 & L3 & W3 & O3 & N3 & X3).
  rewrite G2, G1 in M3, T3, L3. rewrite G1 in M2, T2, L2.
  set (g := length (new_widgets ui_statusLabel (tree (_manager self)) "gui"
                      (keys gui))) in *.
  set (l := length (new_widgets ui_statusLabel (tree (_manager self)) "logic"
                      (keys logic))) in *.
  set (h := length (new_widgets ui_statusLabel (tree (_manager self))
                      "hardware" (keys hardware))) in *.
  assert (Len1 : length (modlist s1) = length (modlist self) + g)
    by (by rewrite M1, length_app).
  assert (Len2 : length (modlist s2) = length (modlist self) + g + l)
    by (by rewrite M2, length_app, Len1).
  rewrite Len2 in T3, L3. rewrite Len1 in T2, L2.
  exists s3, g, l, h. split; [exact E3|]. do 3 (split; [done|]).
  split; [rewrite M3, length_app, Len2; fold h; lia|].
  split.
  { rewrite T3, T2, T1, <- !app_assoc. f_equal.
    by rewrite !seq_app, <- app_assoc, Nat.add_assoc. }
  split; [by rewrite (L3 guilayout), (L2 guilayout), (L1 guilayout),
            !app_nil_r|].
  split; [by rewrite (L3 logiclayout), (L2 logiclayout), (L1 logiclayout),
            !app_nil_r|].
  split; [by rewrite (L3 hwlayout), (L2 hwlayout), (L1 hwlayout),
            !app_nil_r|].
  repeat split; congruence.
Qed.

(** X9: started on an empty [modlist], one run of [updateGUIModuleList]
    creates widgets for configured modules only: every widget in [modlist]
    belongs to a name that is defined under the widget's category, which
    is gui, logic or hardware, and that is not in the auto-start list; its
    button reads 'Load <name>' and its status label has the text of the
    ui file. *)
Theorem updateGUIModuleList_only_configured
  (gui logic hardware : dict ConfigTree.pyvalue) (self : t)
  (w : ModuleListItem.t) :
  modlist self = [] →
  get (defined (tree (_manager self))) "gui" = Some gui →
  get (defined (tree (_manager self))) "logic" = Some logic →
  get (defined (tree (_manager self))) "hardware" = Some hardware →
  w ∈ modlist (updateGUIModuleList ui_statusLabel self).2 →
  (∃ d, (ModuleListItem.base w, d)
        ∈ [("gui", gui); ("logic", logic); ("hardware", hardware)]
        ∧ ModuleListItem.name w ∈ keys d)
  ∧ list_contains (global_startup (tree (_manager self)))
      (ModuleListItem.name w) = false
  ∧ ModuleListItem.loadButton w = "Load " +:+ ModuleListItem.name w
  ∧ ModuleListItem.statusLabel w = ui_statusLabel.
Proof.
  intros Hnil Hg Hl Hh.
  destruct (updateGUIModuleList_appends ui_statusLabel gui logic hardware
              self Hg Hl Hh) as (s1 & E1 & M1 & _).
  rewrite E1. cbn [snd]. rewrite M1, Hnil. cbn [app].
  unfold new_widgets. rewrite !elem_of_app, !list_elem_of_fmap.
  intros [(n & -> & [Hs Hn]%list_elem_of_filter)
         |[(n & -> & [Hs Hn]%list_elem_of_filter)
          |(n & -> & [Hs Hn]%list_elem_of_filter)]]; cbn.
  - split; [|done]. exists gui. split; [|done]. apply elem_of_cons. by left.
  - split; [|done]. exists logic. split; [|done].
    apply elem_of_cons. right. apply elem_of_cons. by left.
  - split; [|done]. exists hardware. split; [|done].
    do 2 (apply elem_of_cons; right). apply elem_of_cons. by left.
Qed.

(** X10: a missing category stops the rebuild half way.  When the defined
    modules have the category gui but not the category logic,
    [updateGUIModuleList] raises KeyError('logic'); the gui widgets it
    created before stay in [modlist], and no hardware widget is
    created. *)
Theorem updateGUIModuleList_missing_logic
  (gui : dict ConfigTree.pyvalue) (self : t) :
  get (defined (tree (_manager self))) "gui" = Some gui →
  get (defined (tree (_manager self))) "logic" = None →
  ∃ self' : t,
    updateGUIModuleList ui_statusLabel self = (Raise (KeyError "logic"), self')
    ∧ modlist self'
      = modlist self
        ++ new_widgets ui_statusLabel (tree (_manager self)) "gui" (keys gui).
Proof.
  intros Hg Hl. unfold updateGUIModuleList.
  destruct (fillModuleList_appends ui_statusLabel guilayout "gui" gui self Hg)
    as (s1 & E1 & M1 & G1).
  unfold mbind at 1, M_bind at 1. rewrite E1.
  rewrite <- G1 in Hl.
  exists s1. split; [|done].
  unfold mbind at 1, M_bind at 1, fillModuleList.
  unfold mbind at 1, M_bind at 1, get_self at 1.
  unfold mbind at 1, M_bind at 1, lift, getitem. by rewrite Hl.
Qed.

End ModuleList.

Lemma updateGUIModuleList_wiring_witness :
  get (defined (tree (_manager Samples.sample_gui))) "gui"
  = Some [("a", ConfigTree.VOrderedDict []); ("b", ConfigTree.VOrderedDict [])]
  ∧ get (defined (tree (_manager Samples.sample_gui))) "logic" = Some []
  ∧ get (defined (tree (_manager Samples.sample_gui))) "hardware" = Some []
  ∧ ∃ (self' : t) (g l h : nat),
      updateGUIModuleList "Module status" Samples.sample_gui
      = (Return tt, self')
      ∧ g = 1 ∧ l = 0 ∧ h = 0
      ∧ length (modlist self') = 0 + (g + l + h)
      ∧ checkTimer_timeout self' = [] ++ seq 0 (g + l + h)
      ∧ layout_widgets (_mw self') guilayout = [] ++ seq 0 g
      ∧ layout_widgets (_mw self') logiclayout = [] ++ seq (0 + g) l
      ∧ layout_widgets (_mw self') hwlayout = [] ++ seq (0 + g + l) h
      ∧ logwidget (_mw self') = []
      ∧ modules self' = ∅
      ∧ namespace self' = ∅
      ∧ emitted self' = [].
Proof.
  split; [reflexivity|]. split; [reflexivity|]. split; [reflexivity|].
  exact (updateGUIModuleList_wiring "Module status"
           [("a", ConfigTree.VOrderedDict []);
            ("b", ConfigTree.VOrderedDict [])] [] []
           Samples.sample_gui eq_refl eq_refl eq_refl).
Defined.

Lemma updateGUIModuleList_first_run_witness :
  modlist Samples.sample_gui = []
  ∧ NoDup (keys [("a", ConfigTree.VOrderedDict []);
                 ("b", ConfigTree.VOrderedDict [])])
  ∧ "b" ∈ keys [("a", ConfigTree.VOrderedDict []);
                ("b", ConfigTree.VOrderedDict [])]
  ∧ list_contains (global_startup (tree (_manager Samples.sample_gui))) "b"
    = false
  ∧ (updateGUIModuleList "Module status" Samples.sample_gui).1 = Return tt
  ∧ count_items "gui" "b"
      (updateGUIModuleList "Module status" Samples.sample_gui).2 = 1.
Proof.
  assert (Hnd : NoDup (keys [("a", ConfigTree.VOrderedDict []);
                             ("b", ConfigTree.VOrderedDict [])])).
  { apply (bool_decide_unpack _). vm_compute. exact I. }
  assert (Hin : "b" ∈ keys [("a", ConfigTree.VOrderedDict []);
                            ("b", ConfigTree.VOrderedDict [])]).
  { apply (bool_decide_unpack _). vm_compute. exact I. }
  split; [reflexivity|]. split; [exact Hnd|]. split; [exact Hin|].
  split; [reflexivity|].
  exact (updateGUIModuleList_first_run "Module status"
           [("a", ConfigTree.VOrderedDict []);
            ("b", ConfigTree.VOrderedDict [])] [] []
           Samples.sample_gui "gui" "b"
           [("a", ConfigTree.VOrderedDict []);
            ("b", ConfigTree.VOrderedDict [])]
           eq_refl eq_refl eq_refl eq_refl Hnd (NoDup_nil_2) (NoDup_nil_2)
           (list_elem_of_here _ _) Hin eq_refl).
Defined.

Lemma updateGUIModuleList_again_witness :
  get (defined (tree (_manager Samples.sample_gui))) "gui"
  = Some [("a", ConfigTree.VOrderedDict []); ("b", ConfigTree.VOrderedDict [])]
  ∧ ∃ self1 self2 : t,
      updateGUIModuleList "Module status" Samples.sample_gui
      = (Return tt, self1)
      ∧ updateGUIModuleList "Module status" self1 = (Return tt, self2)
      ∧ ∃ new : list ModuleListItem.t,
          modlist self1 = modlist Samples.sample_gui ++ new
          ∧ modlist self2 = modlist Samples.sample_gui ++ new ++ new.
Proof.
  split; [reflexivity|].
  exact (updateGUIModuleList_again "Module status"
           [("a", ConfigTree.VOrderedDict []);
            ("b", ConfigTree.VOrderedDict [])] [] []
           Samples.sample_gui eq_refl eq_refl eq_refl).
Defined.

Lemma updateGUIModuleList_only_configured_witness :
  modlist Samples.sample_gui = []
  ∧ ModuleListItem.__init__ "Module status" "gui" "b"
    ∈ modlist (updateGUIModuleList "Module status" Samples.sample_gui).2
  ∧ (∃ d, ("gui", d)
          ∈ [("gui", [("a", ConfigTree.VOrderedDict []);
                      ("b", ConfigTree.VOrderedDict [])]);
             ("logic", []); ("hardware", [])]
          ∧ "b" ∈ keys d)
  ∧ list_contains (global_startup (tree (_manager Samples.sample_gui))) "b"
    = false
  ∧ ModuleListItem.loadButton
      (ModuleListItem.__init__ "Module status" "gui" "b") = "Load " +:+ "b"
  ∧ ModuleListItem.statusLabel
      (ModuleListItem.__init__ "Module status" "gui" "b") = "Module status".
Proof.
  assert (Hin : ModuleListItem.__init__ "Module status" "gui" "b"
                ∈ modlist (updateGUIModuleList "Module status"
                             Samples.sample_gui).2).
  { vm_compute. apply list_elem_of_here. }
  split; [reflexivity|]. split; [exact Hin|].
  exact (updateGUIModuleList_only_configured "Module status"
           [("a", ConfigTree.VOrderedDict []);
            ("b", ConfigTree.VOrderedDict [])] [] []
           Samples.sample_gui
           (ModuleListItem.__init__ "Module status" "gui" "b")
           eq_refl eq_refl eq_refl eq_refl Hin).
Defined.

Lemma updateGUIModuleList_missing_logic_witness :
  get (defined (tree (Samples.sample_manager Samples.sample_tree_no_logic)))
    "logic" = None
  ∧ ∃ self' : t,
      updateGUIModuleList "Module status"
        (ManagerGui.__init__
           (Samples.sample_manager Samples.sample_tree_no_logic))
      = (Raise (KeyError "logic"), self')
      ∧ modlist self'
        = [] ++ new_widgets "Module status" Samples.sample_tree_no_logic "gui"
                  (keys [("a", ConfigTree.VOrderedDict []);
                         ("b", ConfigTree.VOrderedDict [])]).
Proof.
  split; [reflexivity|].
  exact (updateGUIModuleList_missing_logic "Module status"
           [("a", ConfigTree.VOrderedDict []);
            ("b", ConfigTree.VOrderedDict [])]
           (ManagerGui.__init__
              (Samples.sample_manager Samples.sample_tree_no_logic))
           eq_refl eq_refl).
Defined.

End ModuleListMore.

(** * The console namespace: failure, repetition, name clashes *)

Module ConsoleMore.
Import Py Manager ManagerGui ConsoleFacts.





(** The loop that pops names writes the namespace only. *)
Lemma pop_loop_frame (names : list string) (self : t) :
  ∃ ns : gmap string pyobj,
    for_each names (fun module => modify (set_namespace (delete module))) self
    = (Return tt, set_namespace (fun _ => ns) self).
Proof.
  revert self. induction names as [|module names IH]; intros self.
  - exists (namespace self). by destruct self.
  - destruct (IH (set_namespace (delete module) self)) as (ns & E).
    exists ns. cbn [for_each]. unfold mbind, M_bind, modify at 1.
    exact E.
Qed.

(** [updateIPythonModuleList] writes the namespace and the tracked modules
    only. *)
Lemma updateIPythonModuleList_frame (hardware logic gui : dict Module)
  (self : t) :
  get (loaded (tree (_manager self))) "hardware" = Some hardware →
  get (loaded (tree (_manager self))) "logic" = Some logic →
  get (loaded (tree (_manager self))) "gui" = Some gui →
  ∃ (ns : gmap string pyobj) (ms : gset string),
    updateIPythonModuleList self
    = (Return tt, set_modules (fun _ => ms) (set_namespace (fun _ => ns) self)).
Proof.
  intros Hh Hl Hg.
  destruct (inner_loop hardware (keys hardware) (∅, ∅))
    as (a1 & E1 & _); [by intros k ?%elem_of_keys_get|].
  destruct (inner_loop logic (keys logic) a1)
    as (a2 & E2 & _); [by intros k ?%elem_of_keys_get|].
  destruct (inner_loop gui (keys gui) a2)
    as (a3 & E3 & _); [by intros k ?%elem_of_keys_get|].
  destruct (pop_loop_frame (elements (modules self ∖ a3.1))
              (set_namespace (fun ns => a3.2 ∪ ns) self)) as (ns & E4).
  exists ns, a3.1.
  unfold updateIPythonModuleList.
  unfold mbind at 1, M_bind at 1, get_self at 1.
  cbn [for_in].
  rewrite (getitem_Some _ _ _ Hh), (getitem_Some _ _ _ Hl),
    (getitem_Some _ _ _ Hg).
  rewrite bind_Return, E1, bind_Return, bind_Return, E2, bind_Return,
    bind_Return, E3, !bind_Return.
  unfold mbind, M_bind, lift, modify in E4 |- *. cbn [fst snd].
  by rewrite E4.
Qed.

(** X12: [updateIPythonModuleList] is idempotent: run again while the
    manager's tree is the same, it returns and leaves the whole GUI object
    exactly as the first run left it. *)
Theorem updateIPythonModuleList_idempotent (hardware logic gui : dict Module)
  (self : t) :
  get (loaded (tree (_manager self))) "hardware" = Some hardware →
  get (loaded (tree (_manager self))) "logic" = Some logic →
  get (loaded (tree (_manager self))) "gui" = Some gui →
  ∃ self1 : t,
    updateIPythonModuleList self = (Return tt, self1)
    ∧ updateIPythonModuleList self1 = (Return tt, self1).
Proof.
  intros Hh Hl Hg.
  destruct (updateIPythonModuleList_result hardware logic gui self Hh Hl Hg)
    as (s1 & E1 & Hmod1 & Hns1 & G1).
  exists s1. split; [exact E1|].
  rewrite <- G1 in Hh, Hl, Hg.
  destruct (updateIPythonModuleList_result hardware logic gui s1 Hh Hl Hg)
    as (s2 & E2 & Hmod2 & Hns2 & G2).
  destruct (updateIPythonModuleList_frame hardware logic gui s1 Hh Hl Hg)
    as (ns & ms & F2).
  rewrite E2 in F2 |- *. f_equal.
  assert (Hns : namespace s2 = namespace s1).
  { apply map_eq. intros k. rewrite Hns2, G1.
    destruct (loaded_module (tree (_manager self)) k) as [m|] eqn:Hm.
    - by rewrite Hns1, Hm.
    - rewrite decide_False; [done|].
      rewrite Hmod1, Hm. by intros [? ?]. }
  assert (Hms : modules s2 = modules s1).
  { apply set_eq. intros k. by rewrite Hmod2, Hmod1, G1. }
  injection F2 as ->. cbn in Hns, Hms. subst ns ms. by destruct s1.
Qed.

Lemma updateIPythonModuleList_idempotent_witness :
  get (loaded (tree (_manager Samples.sample_console))) "hardware" = Some []
  ∧ get (loaded (tree (_manager Samples.sample_console))) "logic"
    = Some [("counter", Samples.idle_module)]
  ∧ get (loaded (tree (_manager Samples.sample_console))) "gui"
    = Some [("a", Samples.idle_module)]
  ∧ ∃ self1 : t,
      updateIPythonModuleList Samples.sample_console = (Return tt, self1)
      ∧ updateIPythonModuleList self1 = (Return tt, self1).
Proof.
  split; [reflexivity|]. split; [reflexivity|]. split; [reflexivity|].
  exact (updateIPythonModuleList_idempotent []
           [("counter", Samples.idle_module)] [("a", Samples.idle_module)]
           Samples.sample_console eq_refl eq_refl eq_refl).
Defined.

(** X13: a module that takes the name of a binding of the console and is
    unloaded later takes the binding with it.  While a module is loaded
    under the name [k], the namespace binds [k] to the module, whatever
    [k] was bound to before; once the manager's tree no longer has a
    module of that name, the next run leaves [k] unbound: the earlier
    binding is not restored. *)
Theorem unloaded_module_takes_binding_away (tr2 : ManagerTree)
  (h1 l1 g1 h2 l2 g2 : dict Module) (self : t) (k : string) (m : Module) :
  get (loaded (tree (_manager self))) "hardware" = Some h1 →
  get (loaded (tree (_manager self))) "logic" = Some l1 →
  get (loaded (tree (_manager self))) "gui" = Some g1 →
  get (loaded tr2) "hardware" = Some h2 →
  get (loaded tr2) "logic" = Some l2 →
  get (loaded tr2) "gui" = Some g2 →
  loaded_module (tree (_manager self)) k = Some m →
  loaded_module tr2 k = None →
  ∃ self1 self2 : t,
    updateIPythonModuleList self = (Return tt, self1)
    ∧ namespace self1 !! k = Some (ObjModule m)
    ∧ updateIPythonModuleList (set__manager (set_tree tr2) self1)
      = (Return tt, self2)
    ∧ namespace self2 !! k = None.
Proof.
  intros Hh1 Hl1 Hg1 Hh2 Hl2 Hg2 Hm1 Hm2.
  destruct (updateIPythonModuleList_result h1 l1 g1 self Hh1 Hl1 Hg1)
    as (s1 & E1 & Hmod1 & Hns1 & G1).
  destruct (updateIPythonModuleList_result h2 l2 g2
              (set__manager (set_tree tr2) s1) Hh2 Hl2 Hg2)
    as (s2 & E2 & Hmod2 & Hns2 & G2).
  exists s1, s2. split; [exact E1|]. split; [by rewrite Hns1, Hm1|].
  split; [exact E2|].
  rewrite Hns2. cbn [_manager set__manager set_tree tree]. rewrite Hm2.
  rewrite decide_True; [done|].
  cbn [modules set__manager]. apply Hmod1. by eexists.
Qed.

Lemma unloaded_module_takes_binding_away_witness :
  get (loaded (tree (_manager
         (set__manager (set_tree Samples.sample_tree_np)
            Samples.sample_console)))) "hardware" = Some []
  ∧ loaded_module Samples.sample_tree_np "np" = Some Samples.idle_module
  ∧ loaded_module Samples.sample_tree "np" = None
  ∧ namespace Samples.sample_console !! "np" = Some (ObjOther "numpy")
  ∧ ∃ self1 self2 : t,
      updateIPythonModuleList
        (set__manager (set_tree Samples.sample_tree_np)
           Samples.sample_console) = (Return tt, self1)
      ∧ namespace self1 !! "np" = Some (ObjModule Samples.idle_module)
      ∧ updateIPythonModuleList
          (set__manager (set_tree Samples.sample_tree) self1)
        = (Return tt, self2)
      ∧ namespace self2 !! "np" = None.
Proof.
  split; [reflexivity|]. split; [reflexivity|]. split; [reflexivity|].
  split; [reflexivity|].
  exact (unloaded_module_takes_binding_away Samples.sample_tree
           [] [("np", Samples.idle_module)] [] [] [] []
           (set__manager (set_tree Samples.sample_tree_np)
              Samples.sample_console)
           "np" Samples.idle_module
           eq_refl eq_refl eq_refl eq_refl eq_refl eq_refl eq_refl eq_refl).
Defined.

(** X14: the namespace [startIPython] sets up.  A name under which a
    module is loaded is bound to the module, also when it is one of [np],
    [config], [manager], [pg] or a name of the kernel's namespace; a name
    that the GUI tracked as a module and that is no longer loaded is
    unbound; any other name has the object [startIPython] put there, [np],
    [config], [manager] and, with pyqtgraph, [pg], or else what the
    kernel's namespace had. *)
Theorem startIPython_namespace (hardware logic gui : dict Module)
  (_has_pyqtgraph : bool) (user_ns : gmap string pyobj) (self : t) :
  get (loaded (tree (_manager self))) "hardware" = Some hardware →
  get (loaded (tree (_manager self))) "logic" = Some logic →
  get (loaded (tree (_manager self))) "gui" = Some gui →
  ∃ self' : t,
    startIPython _has_pyqtgraph user_ns self = (Return tt, self')
    ∧ (∀ k, k ∈ modules self'
            ↔ is_Some (loaded_module (tree (_manager self)) k))
    ∧ ∀ k, namespace self' !! k
           = match loaded_module (tree (_manager self)) k with
             | Some m => Some (ObjModule m)
             | None =>
                 if decide (k ∈ modules self) then None
                 else if decide (k = "pg" ∧ _has_pyqtgraph = true)
                      then Some (ObjOther "pyqtgraph")
                 else if decide (k = "np") then Some (ObjOther "numpy")
                 else if decide (k = "config")
                      then Some (ObjOther "manager.tree['defined']")
                 else if decide (k = "manager") then Some (ObjOther "manager")
                 else user_ns !! k
             end.
Proof.
  intros Hh Hl Hg.
  set (seed := (if _has_pyqtgraph
                then <[ "pg" := ObjOther "pyqtgraph" ]>
                else fun ns => ns)
                 ({[ "np" := ObjOther "numpy";
                     "config" := ObjOther "manager.tree['defined']";
                     "manager" := ObjOther "manager" ]} ∪ user_ns)).
  assert (Hrun : startIPython _has_pyqtgraph user_ns self
                 = updateIPythonModuleList
                     (set_namespace (fun _ => seed) self)).
  { unfold startIPython, mbind, M_bind, modify, seed.
    by destruct _has_pyqtgraph. }
  destruct (updateIPythonModuleList_result hardware logic gui
              (set_namespace (fun _ => seed) self) Hh Hl Hg)
    as (s1 & E1 & Hmod1 & Hns1 & G1).
  exists s1. rewrite Hrun. split; [exact E1|]. split; [exact Hmod1|].
  intros k. rewrite Hns1. cbn [_manager modules namespace set_namespace].
  destruct (loaded_module (tree (_manager self)) k); [done|].
  destruct (decide (k ∈ modules self)); [done|].
  unfold seed.
  destruct _has_pyqtgraph.
  - destruct (decide (k = "pg")) as [->|Hpg].
    + rewrite lookup_insert_eq. by rewrite decide_True.
    + rewrite lookup_insert_ne by done.
      rewrite decide_False by (by intros [? _]).
      rewrite lookup_union.
      repeat (case_decide; [subst k; by destruct (user_ns !! _)|]).
      rewrite !lookup_insert_ne, lookup_singleton_ne by done.
      by destruct (user_ns !! k).
  - rewrite decide_False by (by intros [_ ?]).
    rewrite lookup_union.
    repeat (case_decide; [subst k; by destruct (user_ns !! _)|]).
    rewrite !lookup_insert_ne, lookup_singleton_ne by done.
    by destruct (user_ns !! k).
Qed.

Lemma startIPython_namespace_witness :
  get (loaded (tree (_manager
         (ManagerGui.__init__ (Samples.sample_manager Samples.sample_tree_np)))))
    "logic" = Some [("np", Samples.idle_module)]
  ∧ ∃ self' : t,
      startIPython true {[ "In" := ObjOther "[]" ]}
        (ManagerGui.__init__ (Samples.sample_manager Samples.sample_tree_np))
      = (Return tt, self')
      ∧ (∀ k, k ∈ modules self'
              ↔ is_Some (loaded_module Samples.sample_tree_np k))
      ∧ ∀ k, namespace self' !! k
             = match loaded_module Samples.sample_tree_np k with
               | Some m => Some (ObjModule m)
               | None =>
                   if decide (k ∈ (∅ : gset string)) then None
                   else if decide (k = "pg" ∧ true = true)
                        then Some (ObjOther "pyqtgraph")
                   else if decide (k = "np") then Some (ObjOther "numpy")
                   else if decide (k = "config")
                        then Some (ObjOther "manager.tree['defined']")
                   else if decide (k = "manager")
                        then Some (ObjOther "manager")
                   else ({[ "In" := ObjOther "[]" ]} : gmap string pyobj) !! k
               end.
Proof.
  split; [reflexivity|].
  exact (startIPython_namespace [] [("np", Samples.idle_module)] [] true
           {[ "In" := ObjOther "[]" ]}
           (ManagerGui.__init__ (Samples.sample_manager Samples.sample_tree_np))
           eq_refl eq_refl eq_refl).
Defined.

Example startIPython_sample :
  namespace
    (startIPython true {[ "In" := ObjOther "[]" ]}
       (ManagerGui.__init__ (Samples.sample_manager Samples.sample_tree_np))).2
  = {[ "np" := ObjModule Samples.idle_module;
       "pg" := ObjOther "pyqtgraph";
       "config" := ObjOther "manager.tree['defined']";
       "manager" := ObjOther "manager";
       "In" := ObjOther "[]" ]}.
Proof. vm_compute. reflexivity. Qed.

End ConsoleMore.

(** * Log entries and version lookup: sequences and failures *)

Module DispatcherMore.
Import Py Manager ManagerGui.

Lemma handleLogEntry_state (entry : dict string) (self : t) :
  (handleLogEntry entry self).2
  = (if is_error_entry entry
     then set_errorDialog (fun l => l ++ [entry])
            (set__mw (addEntry entry) self)
     else set__mw (addEntry entry) self).
Proof.
  unfold handleLogEntry, is_error_entry, mbind, M_bind, modify, lift, getitem.
  cbn. destruct (get entry "level") as [level|]; cbn; [|done].
  by destruct (String.eqb level "error" || String.eqb level "critical").
Qed.

(** X15: a log entry without a level is still added to the log widget;
    then [handleLogEntry] raises KeyError('level') and the error dialog is
    not shown. *)
Theorem handleLogEntry_without_level (entry : dict string) (self : t) :
  get entry "level" = None →
  handleLogEntry entry self
  = (Raise (KeyError "level"), set__mw (addEntry entry) self)
  ∧ logwidget (_mw (handleLogEntry entry self).2)
    = logwidget (_mw self) ++ [entry]
  ∧ errorDialog (handleLogEntry entry self).2 = errorDialog self.
Proof.
  intros H.
  assert (E : handleLogEntry entry self
              = (Raise (KeyError "level"), set__mw (addEntry entry) self)).
  { unfold handleLogEntry, mbind, M_bind, modify, lift, getitem. cbn.
    by rewrite H. }
  by rewrite E.
Qed.

Lemma handleLogEntry_without_level_witness :
  get [("message", "started")] "level" = None
  ∧ handleLogEntry [("message", "started")] Samples.sample_gui
    = (Raise (KeyError "level"),
       set__mw (addEntry [("message", "started")]) Samples.sample_gui)
  ∧ logwidget (_mw (handleLogEntry [("message", "started")]
                      Samples.sample_gui).2)
    = [] ++ [[("message", "started")]]
  ∧ errorDialog (handleLogEntry [("message", "started")]
                   Samples.sample_gui).2 = [].
Proof.
  split; [reflexivity|].
  exact (handleLogEntry_without_level [("message", "started")]
           Samples.sample_gui eq_refl).
Defined.

(** X16: after a sequence of log entries has been handled, the log widget
    holds all of them, in the order of arrival, behind what it held, and
    the error dialog was shown for exactly those of level 'error' or
    'critical', in the order of arrival, repetitions included; no signal
    is emitted and the module list and the console are untouched. *)
Theorem handleLogEntries_log_and_popups (entries : list (dict string))
  (self : t) :
  logwidget (_mw (handleLogEntries entries self))
  = logwidget (_mw self) ++ entries
  ∧ errorDialog (handleLogEntries entries self)
    = errorDialog self ++ List.filter is_error_entry entries
  ∧ emitted (handleLogEntries entries self) = emitted self
  ∧ modlist (handleLogEntries entries self) = modlist self
  ∧ namespace (handleLogEntries entries self) = namespace self
  ∧ modules (handleLogEntries entries self) = modules self.
Proof.
  unfold handleLogEntries. revert self.
  induction entries as [|entry entries IH]; intros self.
  - cbn. by rewrite !app_nil_r.
  - cbn [fold_left List.filter].
    destruct (IH (handleLogEntry entry self).2)
      as (Hlog & Hdlg & Hem & Hml & Hns & Hmod).
    rewrite Hlog, Hdlg, Hem, Hml, Hns, Hmod, handleLogEntry_state.
    destruct (is_error_entry entry); cbn; by rewrite <- !app_assoc.
Qed.

(** X17: an exception that is not an [Exception] (KeyboardInterrupt,
    SystemExit) raised while the repository is looked up is not caught by
    [getSoftwareVersion]: it propagates, nothing is printed and no
    version is returned. *)
Theorem getSoftwareVersion_propagates_BaseException (Repo : result Repo_t)
  (self : t) (e : exn) :
  is_Exception e = false →
  (Repo = Raise e
   ∨ (∃ repo, Repo = Return repo ∧ active_branch repo = Raise e)
   ∨ (∃ repo branch, Repo = Return repo
                     ∧ active_branch repo = Return branch
                     ∧ head_commit repo = Raise e)) →
  getSoftwareVersion Repo self = (Raise e, self).
Proof.
  intros He Hfail.
  unfold getSoftwareVersion, try_except_Exception, try_except, mbind,
    M_bind, lift. cbn.
  destruct Hfail as [->|[(repo & -> & Hb)|(repo & branch & -> & Hb & Hr)]].
  - cbn. by rewrite He.
  - rewrite Hb. cbn. by rewrite He.
  - rewrite Hb, Hr. cbn. by rewrite He.
Qed.

Lemma getSoftwareVersion_propagates_BaseException_witness :
  is_Exception (Exn false "KeyboardInterrupt") = false
  ∧ getSoftwareVersion
      (Return {| active_branch := Raise (Exn false "KeyboardInterrupt");
                 head_commit := Return "0a1b2c3" |}) Samples.sample_gui
    = (Raise (Exn false "KeyboardInterrupt"), Samples.sample_gui).
Proof.
  split; [reflexivity|].
  exact (getSoftwareVersion_propagates_BaseException
           (Return {| active_branch := Raise (Exn false "KeyboardInterrupt");
                      head_commit := Return "0a1b2c3" |})
           Samples.sample_gui (Exn false "KeyboardInterrupt") eq_refl
           (or_intror (or_introl
              (ex_intro _ {| active_branch :=
                               Raise (Exn false "KeyboardInterrupt");
                             head_commit := Return "0a1b2c3" |}
                 (conj eq_refl eq_refl))))).
Defined.

End DispatcherMore.

(** * The console settings *)

Module ConsoleSettingsFacts.
Import ConsoleSettings.

Section SpinBox.

Variable setValue : Z → Z.

(** X18: the settings dialog.  Rejecting it after an edit puts the stored
    font size back into the box, or 10 when none is stored, and changes
    neither the stored value nor the console.  Accepting it stores the
    value of the box, gives the console that font size and resets its font
    once; the dialog then presents that value again. *)
Theorem console_settings_accept_and_reject (value : Z) (self : t) :
  fontSizeBox (consoleKeepSettings setValue (edit_fontSizeBox value self))
  = setValue (default 10%Z (_statusVariables self !! "console_font_size"))
  ∧ _statusVariables
      (consoleKeepSettings setValue (edit_fontSizeBox value self))
    = _statusVariables self
  ∧ consolewidget_font_size
      (consoleKeepSettings setValue (edit_fontSizeBox value self))
    = consolewidget_font_size self
  ∧ _statusVariables (consoleApplySettings (edit_fontSizeBox value self))
      !! "console_font_size" = Some value
  ∧ consolewidget_font_size
      (consoleApplySettings (edit_fontSizeBox value self)) = value
  ∧ consolewidget_reset_font
      (consoleApplySettings (edit_fontSizeBox value self))
    = S (consolewidget_reset_font self)
  ∧ fontSizeBox
      (consoleKeepSettings setValue
         (consoleApplySettings (edit_fontSizeBox value self)))
    = setValue value.
Proof.
  unfold consoleApplySettings, consoleKeepSettings, consoleSetFontSize,
    edit_fontSizeBox. cbn.
  rewrite lookup_insert_eq.
  by destruct (_statusVariables self !! "console_font_size").
Qed.

(** X19: [startIPythonWidget] applies a stored font size and does not
    change what is stored: with the font size [fontsize] stored, the
    console gets that font size and the box of the new dialog shows it,
    whatever the ui file put there, and the status variables are the same
    as before; with none stored, the font size of the console is left
    alone and the box shows 10. *)
Theorem startIPythonWidget_restores_font_size (ui_fontSizeBox : Z)
  (self : t) :
  _statusVariables (startIPythonWidget setValue ui_fontSizeBox self)
  = _statusVariables self
  ∧ consolewidget_font_size (startIPythonWidget setValue ui_fontSizeBox self)
    = default (consolewidget_font_size self)
        (_statusVariables self !! "console_font_size")
  ∧ fontSizeBox (startIPythonWidget setValue ui_fontSizeBox self)
    = setValue (default 10%Z (_statusVariables self !! "console_font_size")).
Proof.
  unfold startIPythonWidget, consoleKeepSettings, consoleSetFontSize.
  destruct (_statusVariables self !! "console_font_size") as [v|] eqn:Hv;
    cbn.
  - rewrite lookup_insert_eq. by rewrite insert_id.
  - by rewrite Hv.
Qed.

End SpinBox.

End ConsoleSettingsFacts.

(** * Wiring: buttons, signals and the shared timer *)

Module WiringFacts.
Import Py Manager ManagerGui ModuleListMore.

Lemma fillModuleList_keeps_wired (ui_statusLabel : string) (lay : layout)
  (base : string) (d : dict ConfigTree.pyvalue) (self : t) :
  wired self →
  get (defined (tree (_manager self))) base = Some d →
  ∃ self' : t,
    fillModuleList ui_statusLabel lay base self = (Return tt, self')
    ∧ wired self'
    ∧ _manager self' = _manager self.
Proof.
  intros [Ht Hc] Hd. unfold fillModuleList.
  unfold mbind at 1, M_bind at 1, get_self at 1.
  unfold mbind at 1, M_bind at 1, lift, getitem. rewrite Hd.
  destruct (fillModuleList_loop_wiring ui_statusLabel lay base (keys d) self)
    as (self' & E & Hg & Hml & Htm & _ & Hcon & _).
  exists self'. split; [exact E|]. split; [|exact Hg].
  unfold wired. rewrite Htm, Hcon, Hml, Ht, Hc, length_app.
  rewrite seq_app, bind_app. done.
Qed.

(** X20: the wiring invariant.  A new [ManagerGui] is wired, and
    [updateGUIModuleList] keeps the GUI wired, also when it runs again:
    the widgets connected to the timer are the widgets of [modlist], in
    order and each once, and every widget has each of its four signals
    connected exactly once, to [sigStartModule], [sigReloadModule],
    [sigStopModule] and [sigCleanupStatus]. *)
Theorem updateGUIModuleList_keeps_wired (ui_statusLabel : string)
  (gui logic hardware : dict ConfigTree.pyvalue) (mgr : manager) (self : t) :
  wired (ManagerGui.__init__ mgr)
  ∧ (wired self →
     get (defined (tree (_manager self))) "gui" = Some gui →
     get (defined (tree (_manager self))) "logic" = Some logic →
     get (defined (tree (_manager self))) "hardware" = Some hardware →
     (updateGUIModuleList ui_statusLabel self).1 = Return tt
     ∧ wired (updateGUIModuleList ui_statusLabel self).2).
Proof.
  split; [done|]. intros Hw Hg Hl Hh.
  destruct (fillModuleList_keeps_wired ui_statusLabel guilayout "gui" gui
              self Hw Hg) as (s1 & E1 & W1 & G1).
  rewrite <- G1 in Hl, Hh.
  destruct (fillModuleList_keeps_wired ui_statusLabel logiclayout "logic"
              logic s1 W1 Hl) as (s2 & E2 & W2 & G2).
  rewrite <- G2 in Hh.
  destruct (fillModuleList_keeps_wired ui_statusLabel hwlayout "hardware"
              hardware s2 W2 Hh) as (s3 & E3 & W3 & G3).
  assert (E : updateGUIModuleList ui_statusLabel self = (Return tt, s3)).
  { unfold updateGUIModuleList, mbind, M_bind. by rewrite E1, E2, E3. }
  rewrite E. split; [reflexivity|exact W3].
Qed.

Lemma updateGUIModuleList_keeps_wired_witness :
  wired Samples.sample_gui
  ∧ (updateGUIModuleList "Module status" Samples.sample_gui).1 = Return tt
  ∧ wired (updateGUIModuleList "Module status" Samples.sample_gui).2.
Proof.
  assert (Hw : wired Samples.sample_gui) by (split; reflexivity).
  split; [exact Hw|].
  exact (proj2 (updateGUIModuleList_keeps_wired "Module status"
                  [("a", ConfigTree.VOrderedDict []);
                   ("b", ConfigTree.VOrderedDict [])] [] []
                  (Samples.sample_manager Samples.sample_tree)
                  Samples.sample_gui)
           Hw eq_refl eq_refl eq_refl).
Defined.

(** What one connection contributes when widget [i] emits [s]. *)
Lemma relay_emits (i : nat) (s : ModuleListItem.signal)
  (cs : list (nat * string * string)) (self : t) :
  for_each cs
    (fun c =>
       if Nat.eqb c.1.1 i && String.eqb c.1.2 (signal_name s)
       then match relayed c.2 (signal_args s) with
            | Some g => emit g
            | None => mret tt
            end
       else mret tt) self
  = (Return tt,
     set_emitted
       (fun _ => emitted self
                 ++ omap (fun c : nat * string * string =>
                            if Nat.eqb c.1.1 i
                               && String.eqb c.1.2 (signal_name s)
                            then relayed c.2 (signal_args s)
                            else None) cs) self).
Proof.
  revert self. induction cs as [|c cs IH]; intros self.
  - cbn. rewrite app_nil_r. by destruct self.
  - cbn [for_each omap]. unfold mbind at 1, M_bind at 1.
    destruct (Nat.eqb c.1.1 i && String.eqb c.1.2 (signal_name s)) eqn:Hc;
      [destruct (relayed c.2 (signal_args s)) as [g|] eqn:Hr|];
      unfold emit, modify; cbn [mret M_ret]; rewrite IH;
      unfold set_emitted; cbn; rewrite ?Hc, ?Hr, <- ?app_assoc; done.
Qed.

Lemma relay_wired_pick (i n : nat) (s : ModuleListItem.signal) :
  omap (fun c : nat * string * string =>
          if Nat.eqb c.1.1 i && String.eqb c.1.2 (signal_name s)
          then relayed c.2 (signal_args s)
          else None)
    (seq 0 n ≫= fun j => [(j, "sigLoadThis", "sigStartModule");
                          (j, "sigReloadThis", "sigReloadModule");
                          (j, "sigDeactivateThis", "sigStopModule");
                          (j, "sigCleanupStatus", "sigCleanupStatus")])
  = if decide (i < n)%nat
    then [match s with
          | ModuleListItem.sigLoadThis b m => sigStartModule b m
          | ModuleListItem.sigReloadThis b m => sigReloadModule b m
          | ModuleListItem.sigDeactivateThis b m => sigStopModule b m
          | ModuleListItem.sigCleanupStatus b m => sigCleanupStatus b m
          end]
    else [].
Proof.
  induction n as [|n IH]; [done|].
  rewrite seq_S, bind_app, omap_app, IH.
  rewrite bind_cons. cbn [mbind list_bind app].
  cbn [omap list_omap fst snd Nat.add].
  destruct (Nat.eqb_spec n i) as [->|Hne].
  - rewrite decide_False by lia. rewrite decide_True by lia.
    by destruct s.
  - cbn. rewrite app_nil_r.
    destruct (decide (i < n)%nat); [by rewrite decide_True by lia|].
    by rewrite decide_False by lia.
Qed.

Lemma click_wired
  (clicked : ModuleListItem.t → ModuleListItem.t * list ModuleListItem.signal)
  (s : ModuleListItem.signal) (i : nat) (w : ModuleListItem.t) (self : t) :
  wired self →
  modlist self !! i = Some w →
  (clicked w).2 = [s] →
  click clicked i self
  = (Return tt,
     set_emitted
       (fun _ => emitted self
                 ++ [match s with
                     | ModuleListItem.sigLoadThis b m => sigStartModule b m
                     | ModuleListItem.sigReloadThis b m => sigReloadModule b m
                     | ModuleListItem.sigDeactivateThis b m =>
                         sigStopModule b m
                     | ModuleListItem.sigCleanupStatus b m =>
                         sigCleanupStatus b m
                     end])
       (set_modlist (<[ i := (clicked w).1 ]>) self)).
Proof.
  intros [_ Hc] Hw Hs. unfold click.
  unfold mbind at 1, M_bind at 1, get_self at 1. rewrite Hw, Hs.
  unfold mbind at 1, M_bind at 1, modify at 1.
  cbn [for_each]. unfold mbind at 1, M_bind at 1, relay.
  unfold mbind at 1, M_bind at 1, get_self at 1.
  rewrite relay_emits. cbn [connections set_modlist emitted].
  rewrite Hc, relay_wired_pick.
  rewrite decide_True by (by eapply lookup_lt_Some).
  done.
Qed.

(** X21: on a wired GUI every button of every module widget reaches its
    signal exactly once.  A click on Load, Reload, Deactivate or Clean up
    of the widget at position [i] makes [ManagerGui] emit, once,
    [sigStartModule], [sigReloadModule], [sigStopModule] or
    [sigCleanupStatus] with the category and name of that widget, and
    emits nothing else; only Load changes the widget, and only its button
    text. *)
Theorem buttons_reach_their_signal (i : nat) (w : ModuleListItem.t)
  (self : t) :
  wired self →
  modlist self !! i = Some w →
  click ModuleListItem.loadButtonClicked i self
  = (Return tt,
     set_emitted
       (fun _ => emitted self
                 ++ [sigStartModule (ModuleListItem.base w)
                       (ModuleListItem.name w)])
       (set_modlist
          (<[ i := (ModuleListItem.loadButtonClicked w).1 ]>) self))
  ∧ click ModuleListItem.reloadButtonClicked i self
    = (Return tt,
       set_emitted
         (fun _ => emitted self
                   ++ [sigReloadModule (ModuleListItem.base w)
                         (ModuleListItem.name w)])
         (set_modlist (<[ i := w ]>) self))
  ∧ click ModuleListItem.deactivateButtonClicked i self
    = (Return tt,
       set_emitted
         (fun _ => emitted self
                   ++ [sigStopModule (ModuleListItem.base w)
                         (ModuleListItem.name w)])
         (set_modlist (<[ i := w ]>) self))
  ∧ click ModuleListItem.cleanupButtonClicked i self
    = (Return tt,
       set_emitted
         (fun _ => emitted self
                   ++ [sigCleanupStatus (ModuleListItem.base w)
                         (ModuleListItem.name w)])
         (set_modlist (<[ i := w ]>) self))
  ∧ <[ i := w ]> (modlist self) = modlist self.
Proof.
  intros Hw Hi.
  split; [|split; [|split; [|split]]].
  - apply (click_wired _ (ModuleListItem.sigLoadThis (ModuleListItem.base w)
                            (ModuleListItem.name w))); [done..|].
    unfold ModuleListItem.loadButtonClicked. by destruct (String.eqb _ _).
  - exact (click_wired ModuleListItem.reloadButtonClicked
             (ModuleListItem.sigReloadThis (ModuleListItem.base w)
                (ModuleListItem.name w)) i w self Hw Hi eq_refl).
  - exact (click_wired ModuleListItem.deactivateButtonClicked
             (ModuleListItem.sigDeactivateThis (ModuleListItem.base w)
                (ModuleListItem.name w)) i w self Hw Hi eq_refl).
  - exact (click_wired ModuleListItem.cleanupButtonClicked
             (ModuleListItem.sigCleanupStatus (ModuleListItem.base w)
                (ModuleListItem.name w)) i w self Hw Hi eq_refl).
  - by apply list_insert_id.
Qed.

Lemma buttons_reach_their_signal_witness :
  wired (updateGUIModuleList "Module status" Samples.sample_gui).2
  ∧ modlist (updateGUIModuleList "Module status" Samples.sample_gui).2 !! 0
    = Some (ModuleListItem.__init__ "Module status" "gui" "b")
  ∧ emitted
      (click ModuleListItem.deactivateButtonClicked 0
         (updateGUIModuleList "Module status" Samples.sample_gui).2).2
    = [sigStopModule "gui" "b"].
Proof.
  assert (Hw : wired (updateGUIModuleList "Module status"
                        Samples.sample_gui).2) by (split; reflexivity).
  split; [exact Hw|]. split; [reflexivity|].
  destruct (buttons_reach_their_signal 0
              (ModuleListItem.__init__ "Module status" "gui" "b")
              (updateGUIModuleList "Module status" Samples.sample_gui).2
              Hw eq_refl) as (_ & _ & E & _).
  rewrite E. reflexivity.
Defined.

(** One tick of one widget, by [polled]. *)
Lemma checkModuleState_by_polled (w : ModuleListItem.t) (mgr : manager) :
  ∃ n : nat,
    (n ≤ 1)%nat
    ∧ ModuleListItem.checkModuleState w mgr
      = (Return (polled (tree mgr) w),
         {| tree := tree mgr; _getConfigFile := _getConfigFile mgr;
            getState_calls :=
              getState_calls mgr
              ++ replicate n (ModuleListItem.base w, ModuleListItem.name w) |}).
Proof.
  unfold polled.
  destruct (decide (ModuleListItem.statusLabel w
                    = ModuleListItem.error_sentinel)) as [Hl|Hl].
  - exists 0. split; [lia|].
    rewrite !ModuleListItemFacts.checkModuleState_latched by done.
    cbn. rewrite app_nil_r. by destruct mgr.
  - rewrite !ModuleListItemFacts.checkModuleState_polled by done.
    cbn [tree].
    destruct (get (loaded (tree mgr)) (ModuleListItem.base w)
              ≫= (fun d => get d (ModuleListItem.name w))) as [m|].
    + exists 1. split; [lia|]. done.
    + exists 0. split; [lia|]. cbn. rewrite app_nil_r. by destruct mgr.
Qed.

Lemma timeout_loop (l : list ModuleListItem.t) (tr : ManagerTree)
  (m k : nat) (self : t) :
  length l = k + m →
  modlist self = map (polled tr) (take k l) ++ drop k l →
  tree (_manager self) = tr →
  ∃ mgr' : manager,
    for_each (seq k m)
      (fun i =>
         self ← get_self;
         match modlist self !! i with
         | Some widget =>
             match ModuleListItem.checkModuleState widget (_manager self) with
             | (Return widget', mgr') =>
                 _ ← modify (set__manager (fun _ => mgr'));
                 modify (set_modlist (<[ i := widget' ]>))
             | (Raise e, mgr') =>
                 _ ← modify (set__manager (fun _ => mgr'));
                 lift (Raise e)
             end
         | None => mret tt
         end) self
    = (Return tt,
       set_modlist (fun _ => map (polled tr) l)
         (set__manager (fun _ => mgr') self))
    ∧ tree mgr' = tr
    ∧ _getConfigFile mgr' = _getConfigFile (_manager self)
    ∧ ∃ calls : list (string * string),
        getState_calls mgr' = getState_calls (_manager self) ++ calls
        ∧ (length calls ≤ m)%nat
        ∧ ∀ c, c ∈ calls →
               ∃ w, w ∈ l ∧ c = (ModuleListItem.base w, ModuleListItem.name w).
Proof.
  revert k self. induction m as [|m IH]; intros k self Hlen Hml Htr.
  - exists (_manager self). cbn [seq for_each].
    rewrite take_ge, drop_ge, app_nil_r in Hml by lia.
    split; [|split; [done|split; [done|]]].
    + destruct self. cbn in *. by subst.
    + exists []. rewrite app_nil_r. split; [done|]. split; [done|].
      by intros c ?%elem_of_nil.
  - destruct (lookup_lt_is_Some_2 l k) as [w Hw]; [lia|].
    assert (Hk : modlist self !! k = Some w).
    { rewrite Hml, lookup_app_r by (rewrite length_map, length_take; lia).
      rewrite length_map, length_take, Nat.min_l by lia.
      rewrite Nat.sub_diag, lookup_drop, Nat.add_0_r. done. }
    destruct (checkModuleState_by_polled w (_manager self))
      as (n & Hn & Hcheck).
    rewrite Htr in Hcheck.
    match type of Hcheck with
    | _ = (_, ?g) => set (mgr1 := g) in *
    end.
    destruct (IH (S k)
                (set_modlist (<[ k := polled tr w ]>)
                   (set__manager (fun _ => mgr1) self)))
      as (mgr' & E & Htr' & Hcf & calls & Hcalls & Hlen' & Hown).
    + lia.
    + cbn [modlist set_modlist set__manager]. rewrite Hml.
      rewrite insert_app_r_alt by (rewrite length_map, length_take; lia).
      rewrite length_map, length_take, Nat.min_l by lia.
      rewrite Nat.sub_diag, (drop_S l w k Hw), (take_S_r l k w Hw).
      rewrite map_app. cbn. by rewrite <- app_assoc.
    + done.
    + exists mgr'. split; [|split; [done|split; [done|]]].
      * cbn [seq for_each]. unfold mbind at 1, M_bind at 1.
        unfold mbind at 1, M_bind at 1, get_self at 1.
        rewrite Hk, Hcheck.
        unfold mbind at 1, M_bind at 1, modify.
        exact E.
      * cbn [_manager set_modlist set__manager] in Hcalls.
        exists (replicate n (ModuleListItem.base w, ModuleListItem.name w)
                ++ calls).
        split; [by rewrite Hcalls, app_assoc|].
        split; [rewrite length_app, length_replicate; lia|].
        intros c [Hc|Hc]%elem_of_app.
        -- apply elem_of_replicate in Hc as [-> _].
           exists w. split; [|done]. by eapply list_elem_of_lookup_2.
        -- by apply Hown.
Qed.

(** X22: one timeout of the shared timer on a wired GUI polls every
    widget of [modlist] exactly once: it returns, each widget is replaced
    by what [checkModuleState] makes of it on the current tree, in place;
    the manager's tree and configuration file are the same, at most one
    [getState()] call per widget is added, each on the module of a widget
    of [modlist]; nothing else of the GUI changes. *)
Theorem timeout_polls_every_widget_once (self : t) :
  wired self →
  ∃ mgr' : manager,
    timeout self
    = (Return tt,
       set_modlist
         (fun _ => map (polled (tree (_manager self))) (modlist self))
         (set__manager (fun _ => mgr') self))
    ∧ tree mgr' = tree (_manager self)
    ∧ _getConfigFile mgr' = _getConfigFile (_manager self)
    ∧ ∃ calls : list (string * string),
        getState_calls mgr' = getState_calls (_manager self) ++ calls
        ∧ (length calls ≤ length (modlist self))%nat
        ∧ ∀ c, c ∈ calls →
               ∃ w, w ∈ modlist self
                    ∧ c = (ModuleListItem.base w, ModuleListItem.name w).
Proof.
  intros [Ht _]. unfold timeout.
  unfold mbind at 1, M_bind at 1, get_self at 1. rewrite Ht.
  apply (timeout_loop (modlist self) (tree (_manager self))
           (length (modlist self)) 0 self); [done| |done].
  by rewrite take_0, drop_0.
Qed.

Lemma timeout_polls_every_widget_once_witness :
  wired (updateGUIModuleList "Module status" Samples.sample_gui).2
  ∧ ∃ mgr' : manager,
      timeout (updateGUIModuleList "Module status" Samples.sample_gui).2
      = (Return tt,
         set_modlist
           (fun _ =>
              map (polled (tree (_manager
                     (updateGUIModuleList "Module status"
                        Samples.sample_gui).2)))
                (modlist (updateGUIModuleList "Module status"
                            Samples.sample_gui).2))
           (set__manager (fun _ => mgr')
              (updateGUIModuleList "Module status" Samples.sample_gui).2))
      ∧ tree mgr'
        = tree (_manager
                  (updateGUIModuleList "Module status" Samples.sample_gui).2)
      ∧ _getConfigFile mgr'
        = _getConfigFile
            (_manager
               (updateGUIModuleList "Module status" Samples.sample_gui).2)
      ∧ ∃ calls : list (string * string),
          getState_calls mgr'
          = getState_calls
              (_manager
                 (updateGUIModuleList "Module status" Samples.sample_gui).2)
            ++ calls
          ∧ (length calls
             ≤ length (modlist (updateGUIModuleList "Module status"
                                  Samples.sample_gui).2))%nat
          ∧ ∀ c, c ∈ calls →
                 ∃ w, w ∈ modlist (updateGUIModuleList "Module status"
                                     Samples.sample_gui).2
                      ∧ c = (ModuleListItem.base w, ModuleListItem.name w).
Proof.
  assert (Hw : wired (updateGUIModuleList "Module status"
                        Samples.sample_gui).2) by (split; reflexivity).
  split; [exact Hw|].
  exact (timeout_polls_every_widget_once
           (updateGUIModuleList "Module status" Samples.sample_gui).2 Hw).
Defined.

Example timeout_sample :
  map ModuleListItem.statusLabel
    (modlist
       (timeout (updateGUIModuleList "Module status" Samples.sample_gui).2).2)
  = ["not loaded"].
Proof. reflexivity. Qed.

End WiringFacts.
